(** * Crypto tracker: cache-backed fetcher and aggregation arithmetic

    A shallow embedding of the data layer of [crypto_tracker_all_in_one.py]:
    the time-to-live cache in front of the HTTP client ([get_with_cache]),
    the thin queries built on it ([get_top_coins], [get_coin_history]),
    the portfolio aggregator ([calculate_portfolio_value]), the bucketing
    of [create_market_dominance_chart] and the movers ranking of
    [home_dashboard].

    Modelling conventions.
    - JSON numbers, amounts and clock readings are exact integers ([Z]);
      binary floating-point rounding is outside the model.
    - A Python [dict] whose iteration order matters (the holdings, the
      market-cap shares) is an association list in insertion order; a
      [dict] that is only looked up ([CACHE], [CACHE_EXPIRY],
      [coin_prices]) is a [gmap].
    - A field of a JSON record is a [Field]: the key is absent, or
      present with [null], or present with a value. [.get(k, default)]
      puts the default in place of an absent key only; a [null] comes
      out as Python's [None] and raises where the code computes with it.
    - Sums are stated in the order the code adds: floating-point
      addition would not allow another.
    - Strings are byte strings. [upper] maps the ASCII letters, which
      is what ticker symbols are made of; [lower], used by the search on
      text a user types, is the library's and is left abstract.
    - Exceptions are values of [exn]; code that can raise lives in the
      monad [M], which threads the process-wide cache. *)

From Stdlib Require Import ZArith String Ascii List Lia.
From stdpp Require Import base option list sorting gmap strings pretty.

Open Scope string_scope.
Open Scope list_scope.
Open Scope Z_scope.

(** ** Python built-ins used by the program *)

Module Py.

Section Sorting.
Context {A : Type} (key : A → Z).

(** [before reverse x y]: the comparison [sorted] performs, on keys
    only and with [<] only; [reverse=True] swaps its arguments. *)
Definition before (reverse : bool) (x y : A) : bool :=
  if reverse then key y <? key x else key x <? key y.

(** Insert [x], which stood in front of every element of [s] in the
    input, into the sorted list [s]: it passes exactly the elements
    that must come strictly before it. *)
Fixpoint insert_sorted (reverse : bool) (x : A) (s : list A) : list A :=
  match s with
  | [] => [x]
  | y :: s' =>
      if before reverse y x then y :: insert_sorted reverse x s'
      else x :: s
  end.

(** [sorted(l, key=key, reverse=reverse)] and [l.sort(...)]: Python
    guarantees a stable sort, also under [reverse=True]. *)
Fixpoint sorted (reverse : bool) (l : list A) : list A :=
  match l with
  | [] => []
  | x :: l' => insert_sorted reverse x (sorted reverse l')
  end.

(** The order a sort leaves the keys in. *)
Definition in_order (reverse : bool) (x y : A) : Prop :=
  if reverse then key y ≤ key x else key x ≤ key y.

(** What it means for [out] to be the stable sort of [l]. *)
Definition stable_sort_of (reverse : bool) (l out : list A) : Prop :=
  out ≡ₚ l ∧
  StronglySorted (in_order reverse) out ∧
  ∀ k : Z, filter (λ x, key x = k) out = filter (λ x, key x = k) l.
End Sorting.

(** [sum(...)] over integers. *)
Definition sum (l : list Z) : Z := fold_left Z.add l 0.

(** [s.upper()] on ASCII text; bytes outside [a-z] are left alone. *)
Definition upper_ascii (c : ascii) : ascii :=
  let n := nat_of_ascii c in
  if ((97 <=? n) && (n <=? 122))%nat then ascii_of_nat (n - 32) else c.

Fixpoint upper (s : string) : string :=
  match s with
  | EmptyString => EmptyString
  | String c s' => String (upper_ascii c) (upper s')
  end.

(** [s.replace(old, '')] for a one-character [old]. *)
Fixpoint remove_char (old : ascii) (s : string) : string :=
  match s with
  | EmptyString => EmptyString
  | String c s' =>
      if Ascii.eqb c old then remove_char old s'
      else String c (remove_char old s')
  end.

(** [int(s)] on a string: surrounding whitespace is stripped, one sign
    is allowed, then decimal digits, single underscores allowed between
    digits. [None] is [ValueError]. *)
Definition is_space (c : ascii) : bool :=
  let n := nat_of_ascii c in
  ((n =? 32) || ((9 <=? n) && (n <=? 13)))%nat.

Definition digit_of (c : ascii) : option Z :=
  let n := nat_of_ascii c in
  if ((48 <=? n) && (n <=? 57))%nat then Some (Z.of_nat (n - 48)) else None.

Fixpoint lstrip (s : string) : string :=
  match s with
  | String c s' => if is_space c then lstrip s' else s
  | EmptyString => EmptyString
  end.

Fixpoint all_space (s : string) : bool :=
  match s with
  | EmptyString => true
  | String c s' => is_space c && all_space s'
  end.

(** [digits acc after_digit s]: [after_digit] tells whether the previous
    character was a digit (so that an underscore may follow). *)
Fixpoint digits (acc : Z) (after_digit : bool) (s : string) : option Z :=
  match s with
  | EmptyString => if after_digit then Some acc else None
  | String c s' =>
      match digit_of c with
      | Some d => digits (10 * acc + d) true s'
      | None =>
          if Ascii.eqb c "_" then
            if after_digit then digits acc false s' else None
          else if after_digit && all_space s then Some acc
          else None
      end
  end.

Definition int (s : string) : option Z :=
  match lstrip s with
  | String "-" s' => Z.opp <$> digits 0 false s'
  | String "+" s' => digits 0 false s'
  | s' => digits 0 false s'
  end.

End Py.

(** ** Data model *)

(** A key of a JSON object: absent, present with [null], or present
    with a value. *)
Inductive Field (A : Type) :=
  | Absent
  | Null
  | Value (a : A).
Arguments Absent {A}.
Arguments Null {A}.
Arguments Value {A} a.

(** [obj.get(k, default)]: the default stands in for an absent key
    only. The result [None] is Python's [None], what [null] reads as. *)
Definition get_or {A} (f : Field A) (default : A) : option A :=
  match f with
  | Absent => Some default
  | Null => None
  | Value a => Some a
  end.

(** One record of the ranked-markets list. [coin['id']] is read
    unguarded; the other fields may be missing or [null]. *)
Record MarketCoin := {
  mc_id : string;
  mc_symbol : Field string;
  mc_name : Field string;
  mc_image : Field string;
  mc_current_price : Field Z;
  mc_price_change_percentage_24h : Field Z
}.

(** The JSON values that travel through the cache: [null] (Python
    [None]), the ranked-markets array, and the market-chart object
    (series name to list of [timestamp, value] pairs). *)
Inductive Payload :=
  | JNull
  | JCoins (coins : list MarketCoin)
  | JChart (series : list (string * list (Z * Z))).

(** Python truthiness, as tested by [if not data]. *)
Definition truthy (p : Payload) : bool :=
  match p with
  | JNull => false
  | JCoins coins => negb (bool_decide (coins = []))
  | JChart series => negb (bool_decide (series = []))
  end.

(** Query parameters: the values of a [params] dict. *)
Inductive pyval :=
  | VStr (s : string)
  | VInt (n : Z)
  | VBool (b : bool).

Definition Params := list (string * pyval).
Definition Request : Type := string * option Params.

(** What [requests.get] can come back with: an exception of the client
    (connection error, timeout, ...), or a response with a status code
    and a body, [None] when the body is not JSON. *)
Inductive Response :=
  | RequestFailed
  | Http (status_code : Z) (json : option Payload).

Inductive exn :=
  | ConnectionError
  | HTTPError
  | JSONDecodeError
  | ValueError
  | KeyError
  | TypeError
  | AttributeError.

(** The subclasses of [requests.exceptions.RequestException]. *)
Definition is_RequestException (e : exn) : bool :=
  match e with
  | ConnectionError | HTTPError | JSONDecodeError => true
  | _ => false
  end.

Definition exn_name (e : exn) : string :=
  match e with
  | ConnectionError => "ConnectionError"
  | HTTPError => "HTTPError"
  | JSONDecodeError => "JSONDecodeError"
  | ValueError => "ValueError"
  | KeyError => "KeyError"
  | TypeError => "TypeError"
  | AttributeError => "AttributeError"
  end.

Inductive Result (A : Type) :=
  | Return (a : A)
  | Raise (e : exn).
Arguments Return {A} a.
Arguments Raise {A} e.

(** The world outside one call: the network and the clock. *)
Record Env := {
  requests_get : Request → Response;
  time_time : Z
}.

(** The module-level mutable state, with the requests sent and the lines
    printed so far. *)
Record State := {
  CACHE : gmap string Payload;
  CACHE_EXPIRY : gmap string Z;
  sent : list Request;
  stdout : list string
}.

Definition M (A : Type) : Type := Env → State → Result A * State.

Definition raise {A} (e : exn) : M A := λ _ st, (Raise e, st).

#[global] Instance M_ret : MRet M := λ A a _ st, (Return a, st).
#[global] Instance M_bind : MBind M := λ A B k m env st,
  match m env st with
  | (Return a, st') => k a env st'
  | (Raise e, st') => (Raise e, st')
  end.

Definition BASE_URL : string := "https://api.coingecko.com/api/v3".
Definition CACHE_DURATION : Z := 60.

(** [response.raise_for_status()]: raises for 4XX/5XX responses. *)
Definition raise_for_status (status_code : Z) : Result unit :=
  if bool_decide (400 ≤ status_code < 600) then Raise HTTPError
  else Return tt.

(** The body of the [try] of [get_with_cache], up to [response.json()].
    All three exceptions are [RequestException]s: a body that does not
    parse raises [requests.exceptions.JSONDecodeError]. *)
Definition request_json (r : Response) : Result Payload :=
  match r with
  | RequestFailed => Raise ConnectionError
  | Http status_code json =>
      match raise_for_status status_code with
      | Raise e => Raise e
      | Return _ =>
          match json with
          | None => Raise JSONDecodeError
          | Some data => Return data
          end
      end
  end.

Section Fetcher.
(** [str(params)], the rendering of the parameters inside the cache
    key, and [pd.to_datetime(_, unit='ms')] ([None]: it raises) are
    library functions, kept abstract. *)
Context (str : option Params → string) (to_datetime : Z → option Z).

Definition cache_key_of (url : string) (params : option Params) : string :=
  url +:+ "_" +:+ str params.

Definition get_with_cache (url : string) (params : option Params)
    (cache_duration : Z) : M Payload :=
  λ env st,
    let cache_key := cache_key_of url params in
    let current_time := time_time env in
    if bool_decide (is_Some (CACHE st !! cache_key))
       && bool_decide (default 0 (CACHE_EXPIRY st !! cache_key) > current_time)
    then
      match CACHE st !! cache_key with
      | Some data => (Return data, st)
      | None => (Raise KeyError, st)
      end
    else
      let st1 := {| CACHE := CACHE st; CACHE_EXPIRY := CACHE_EXPIRY st;
                    sent := sent st ++ [(url, params)];
                    stdout := stdout st |} in
      match request_json (requests_get env (url, params)) with
      | Return data =>
          (Return data,
           {| CACHE := <[cache_key := data]> (CACHE st1);
              CACHE_EXPIRY :=
                <[cache_key := current_time + cache_duration]> (CACHE_EXPIRY st1);
              sent := sent st1; stdout := stdout st1 |})
      | Raise e =>
          if is_RequestException e then
            (Return JNull,
             {| CACHE := CACHE st1; CACHE_EXPIRY := CACHE_EXPIRY st1;
                sent := sent st1;
                stdout := stdout st1 ++ ["API request error: " +:+ exn_name e] |})
          else (Raise e, st1)
      end.

Definition get_top_coins (limit : Z) : M Payload :=
  let url := BASE_URL +:+ "/coins/markets" in
  let params :=
    [("vs_currency", VStr "usd"); ("order", VStr "market_cap_desc");
     ("per_page", VInt limit); ("page", VInt 1); ("sparkline", VBool false);
     ("price_change_percentage", VStr "1h,24h,7d")] in
  get_with_cache url (Some params) CACHE_DURATION.

(** One row of the frame built by [get_coin_history]. *)
Record Row := { timestamp : Z; price : Z; date : Z }.

(** [df['date'] = pd.to_datetime(df['timestamp'], unit='ms')] on the
    frame of the [prices]: any conversion that raises loses the frame. *)
Fixpoint frame_of (prices : list (Z * Z)) : Result (list Row) :=
  match prices with
  | [] => Return []
  | (t, p) :: rest =>
      match to_datetime t, frame_of rest with
      | Some d, Return rows =>
          Return ({| timestamp := t; price := p; date := d |} :: rows)
      | None, _ => Raise ValueError
      | _, Raise e => Raise e
      end
  end.

(** [data.get('prices', [])] *)
Definition get_prices (series : list (string * list (Z * Z))) : list (Z * Z) :=
  default [] (snd <$> find (λ kv, String.eqb (fst kv) "prices") series).

(** The value of the ["interval"] parameter: [int(days)] may raise. *)
Definition interval_of (days : string) : Result string :=
  match Py.int days with
  | Some n => Return (if 7 <? n then "daily" else "hourly")
  | None => Raise ValueError
  end.

Definition get_coin_history (coin_id days : string) : M (option (list Row)) :=
  let url := BASE_URL +:+ "/coins/" +:+ coin_id +:+ "/market_chart" in
  match interval_of days with
  | Raise e => raise e
  | Return interval =>
      let params :=
        [("vs_currency", VStr "usd"); ("days", VStr days);
         ("interval", VStr interval)] in
      data ← get_with_cache url (Some params) CACHE_DURATION;
      if negb (truthy data) then mret None
      else
        (* try: ... except Exception: return None *)
        match data with
        | JChart series =>
            match frame_of (get_prices series) with
            | Return df => mret (Some df)
            | Raise _ => mret None
            end
        | _ => mret None
        end
  end.

(** The history request of [home_dashboard] for a timeframe chosen on
    the slider. *)
Definition timeframe_options : list string :=
  ["1d"; "7d"; "30d"; "90d"; "365d"; "max"].

Definition home_history (selected_coin_id selected_timeframe : string)
    : M (option (list Row)) :=
  get_coin_history selected_coin_id (Py.remove_char "d" selected_timeframe).

(** The value stored per coin in the [coin_prices] lookup; [None] is
    Python's [None]. *)
Record CoinData := {
  current_price : option Z;
  price_change_24h_percentage : option Z;
  symbol : option string;
  name : option string;
  image : option string
}.

(** One valued holding of the result. The name, the 24h change and the
    image are copied as they are, [None] included. *)
Record PortfolioItem := {
  item_id : string;
  item_symbol : string;
  item_name : option string;
  item_amount : Z;
  item_price : Z;
  item_value : Z;
  item_price_change_24h : option Z;
  item_image : option string
}.

(** The returned dict: [error] is [None] when the key is absent. *)
Record Valuation := {
  total_value : Z;
  holdings : list PortfolioItem;
  error : option string
}.

Definition coin_data_of (coin : MarketCoin) : CoinData :=
  {| current_price := get_or (mc_current_price coin) 0;
     price_change_24h_percentage := get_or (mc_price_change_percentage_24h coin) 0;
     symbol := get_or (mc_symbol coin) "";
     name := get_or (mc_name coin) "";
     image := get_or (mc_image coin) "" |}.

(** [for coin in all_coins: coin_prices[coin['id']] = {...}] *)
Definition build_coin_prices (all_coins : list MarketCoin) : gmap string CoinData :=
  fold_left (λ coin_prices coin, <[mc_id coin := coin_data_of coin]> coin_prices)
            all_coins ∅.

(** The body of [for coin_id, amount in holdings.items()], on the pair
    of accumulators [(total_value, portfolio_items)]. A price that is
    [None] raises at [amount * coin_data['current_price']], a symbol
    that is [None] at [coin_data['symbol'].upper()]. *)
Definition add_holding (coin_prices : gmap string CoinData)
    (acc : Z * list PortfolioItem) (h : string * Z)
    : Result (Z * list PortfolioItem) :=
  let '(total_value, portfolio_items) := acc in
  let '(coin_id, amount) := h in
  if bool_decide (is_Some (coin_prices !! coin_id)) then
    match coin_prices !! coin_id with
    | None => Raise KeyError
    | Some coin_data =>
        match current_price coin_data with
        | None => Raise TypeError
        | Some price =>
            let value := amount * price in
            match symbol coin_data with
            | None => Raise AttributeError
            | Some coin_symbol =>
                Return (total_value + value,
                        portfolio_items ++
                          [{| item_id := coin_id;
                              item_symbol := Py.upper coin_symbol;
                              item_name := name coin_data;
                              item_amount := amount;
                              item_price := price;
                              item_value := value;
                              item_price_change_24h :=
                                price_change_24h_percentage coin_data;
                              item_image := image coin_data |}])
            end
        end
    end
  else Return acc.

Fixpoint for_holdings (coin_prices : gmap string CoinData)
    (acc : Z * list PortfolioItem) (items : list (string * Z))
    : Result (Z * list PortfolioItem) :=
  match items with
  | [] => Return acc
  | h :: rest =>
      match add_holding coin_prices acc h with
      | Return acc' => for_holdings coin_prices acc' rest
      | Raise e => Raise e
      end
  end.

Definition calculate_portfolio_value (holdings_in : list (string * Z)) : M Valuation :=
  if bool_decide (holdings_in = []) then
    mret {| total_value := 0; holdings := []; error := None |}
  else
    all_coins ← get_top_coins 250;
    if negb (truthy all_coins) then
      mret {| total_value := 0; holdings := [];
              error := Some "Failed to fetch coin data" |}
    else
      match all_coins with
      | JCoins coins =>
          let coin_prices := build_coin_prices coins in
          match for_holdings coin_prices (0, []) holdings_in with
          | Return (total, portfolio_items) =>
              mret {| total_value := total;
                      holdings := Py.sorted item_value true portfolio_items;
                      error := None |}
          | Raise e => raise e
          end
      | _ => raise TypeError
      end.
End Fetcher.

(** ** Market dominance bucketing *)

(** [market_data['data']], of which only one key is read. *)
Record GlobalData := {
  market_cap_percentage : option (list (string * Z))
}.

Inductive Figure :=
  | Annotation (text : string)
  | Pie (title : string) (names : list string) (values : list Z).

(** From [sorted_data = sorted(...)] to [chart_data]. *)
Definition dominance_chart_data (market_cap_percentage : list (string * Z))
    : list (string * Z) :=
  let sorted_data :=
    Py.sorted snd true
      (map (λ kv : string * Z, (Py.upper (fst kv), snd kv)) market_cap_percentage) in
  let top_n := 8%nat in
  if (top_n <? length sorted_data)%nat then
    let top_coins := take top_n sorted_data in
    let others_value := Py.sum (map snd (drop top_n sorted_data)) in
    top_coins ++ [("Others", others_value)]
  else sorted_data.

(** [market_data] is [None] or a JSON object, given by its keys. *)
Definition create_market_dominance_chart
    (market_data : option (list (string * GlobalData))) : Figure :=
  match market_data with
  | None => Annotation "No market data available"
  | Some obj =>
      match snd <$> find (λ kv, String.eqb (fst kv) "data") obj with
      | None => Annotation "No market data available"
      | Some data =>
          let percentages := default [] (market_cap_percentage data) in
          if bool_decide (percentages = []) then
            Annotation "No market dominance data available"
          else
            let chart_data := dominance_chart_data percentages in
            Pie "Market Dominance" (map fst chart_data) (map snd chart_data)
      end
  end.

(** ** Movers ranking of the dashboard *)

(** [coin.get('price_change_percentage_24h', 0)] *)
Definition change_24h (coin : MarketCoin) : option Z :=
  get_or (mc_price_change_percentage_24h coin) 0.

(** [[coin for coin in coins if test(coin.get(...))]], the test being a
    comparison with 0: comparing [None] raises [TypeError]. *)
Fixpoint coins_where (test : Z → bool) (coins : list MarketCoin)
    : Result (list MarketCoin) :=
  match coins with
  | [] => Return []
  | coin :: rest =>
      match change_24h coin with
      | None => Raise TypeError
      | Some change =>
          match coins_where test rest with
          | Raise e => Raise e
          | Return selected =>
              Return (if test change then coin :: selected else selected)
          end
      end
  end.

(** The key of the sort. It is applied to selected coins only, whose
    change is a number. *)
Definition change_key (coin : MarketCoin) : Z := default 0 (change_24h coin).

Definition top_gainers (coins : list MarketCoin) : Result (list MarketCoin) :=
  match coins_where (λ change, 0 <? change) coins with
  | Raise e => Raise e
  | Return selected => Return (take 5 (Py.sorted change_key true selected))
  end.

Definition top_losers (coins : list MarketCoin) : Result (list MarketCoin) :=
  match coins_where (λ change, change <? 0) coins with
  | Raise e => Raise e
  | Return selected => Return (take 5 (Py.sorted change_key false selected))
  end.

(** ** Charts of the portfolio and of the price history *)

(** [portfolio_data.get('holdings', [])] always finds the key: every
    return of [calculate_portfolio_value] sets it. *)
Definition create_portfolio_pie_chart (portfolio_data : Valuation) : Figure :=
  let items := holdings portfolio_data in
  if bool_decide (items = []) then Annotation "No portfolio data available"
  else Pie "Portfolio Allocation" (map item_symbol items) (map item_value items).

(** The line chart of [create_price_chart]: its title and the two
    columns it plots. *)
Inductive PriceFigure :=
  | NoData (text : string)
  | Line (title : string) (x y : list Z).

Definition create_price_chart (df : option (list Row))
    (coin_name timeframe : string) : PriceFigure :=
  match df with
  | None => NoData "No data available"
  | Some [] => NoData "No data available"
  | Some rows =>
      Line (coin_name +:+ " Price History (" +:+ timeframe +:+ ")")
           (map date rows) (map price rows)
  end.

(** The price chart of [home_dashboard]: the history of the selected
    coin over the selected timeframe, handed to [create_price_chart]. *)
Definition home_price_chart (str : option Params → string)
    (to_datetime : Z → option Z)
    (selected_coin_id coin_name selected_timeframe : string) : M PriceFigure :=
  historical_data ← home_history str to_datetime selected_coin_id selected_timeframe;
  mret (create_price_chart historical_data coin_name selected_timeframe).

(** ** Selections of the dashboard and the market page *)

(** [next((i for i, option in enumerate(coin_options)
          if option[0] == 'bitcoin'), 0)] *)
Definition default_coin_index (coin_options : list (string * string)) : nat :=
  default 0%nat (fst <$> list_find (λ option, fst option = "bitcoin") coin_options).

Module Str.

(** [needle in hay] on strings. *)
Fixpoint contains (needle hay : string) : bool :=
  String.prefix needle hay ||
  match hay with
  | EmptyString => false
  | String _ hay' => contains needle hay'
  end.

End Str.

Section Search.
(** [s.lower()] is the library's, kept abstract. *)
Context (lower : string → string).

(** The test of the search comprehension on one coin: [coin['name']]
    is read first, [coin['symbol']] only when the name does not match.
    A missing key raises [KeyError]; a [null] has no [lower]. *)
Definition search_matches (search_query : string) (coin : MarketCoin) : Result bool :=
  match mc_name coin with
  | Absent => Raise KeyError
  | Null => Raise AttributeError
  | Value name =>
      if Str.contains (lower search_query) (lower name) then Return true
      else
        match mc_symbol coin with
        | Absent => Raise KeyError
        | Null => Raise AttributeError
        | Value symbol =>
            Return (Str.contains (lower search_query) (lower symbol))
        end
  end.

(** [[coin for coin in coins if ...]] *)
Fixpoint search_results (search_query : string) (coins : list MarketCoin)
    : Result (list MarketCoin) :=
  match coins with
  | [] => Return []
  | coin :: rest =>
      match search_matches search_query coin with
      | Raise e => Raise e
      | Return keep =>
          match search_results search_query rest with
          | Raise e => Raise e
          | Return found => Return (if keep then coin :: found else found)
          end
      end
  end.
End Search.

(** ** Session state: the portfolio and the watchlist *)

(** A [dict] in insertion order: a key assigned again keeps its place,
    a new key goes last. *)
Module Dict.

Definition get (d : list (string * Z)) (k : string) : option Z :=
  snd <$> find (λ kv, String.eqb (fst kv) k) d.

(** [k in d] *)
Definition mem (d : list (string * Z)) (k : string) : bool :=
  existsb (λ kv, String.eqb (fst kv) k) d.

(** [d[k] = v] *)
Fixpoint set (d : list (string * Z)) (k : string) (v : Z) : list (string * Z) :=
  match d with
  | [] => [(k, v)]
  | (k', v') :: d' =>
      if String.eqb k' k then (k', v) :: d' else (k', v') :: set d' k v
  end.

(** [del d[k]]; [KeyError] when the key is not there. *)
Fixpoint del (d : list (string * Z)) (k : string) : Result (list (string * Z)) :=
  match d with
  | [] => Raise KeyError
  | (k', v') :: d' =>
      if String.eqb k' k then Return d'
      else
        match del d' k with
        | Return d'' => Return ((k', v') :: d'')
        | Raise e => Raise e
        end
  end.

End Dict.

Inductive Notice :=
  | Success (text : string)
  | Warning (text : string)
  | Info (text : string).

(** The "Add to Portfolio" button. *)
Definition add_to_portfolio (portfolio : list (string * Z))
    (selected_coin_id : string) (amount : Z) : list (string * Z) * Notice :=
  if 0 <? amount then
    (Dict.set portfolio selected_coin_id
       (default 0 (Dict.get portfolio selected_coin_id) + amount),
     Success "Added to portfolio!")
  else (portfolio, Warning "Please enter an amount greater than 0.").

(** The "Remove" button of row [i] of the holdings table: the coin is
    looked up again by the name shown in the row. *)
Definition remove_holding (items : list PortfolioItem) (i : nat)
    (portfolio : list (string * Z)) : Result (list (string * Z)) :=
  match items !! i with
  | None => Return portfolio
  | Some row =>
      let coin_id :=
        item_id <$> find (λ h, bool_decide (item_name h = item_name row)) items in
      match coin_id with
      | Some id =>
          if Dict.mem portfolio id then Dict.del portfolio id
          else Return portfolio
      | None => Return portfolio
      end
  end.

(** The "Add" button of the watchlist. *)
Definition add_to_watchlist (watchlist : list string) (selected_coin_id : string)
    : list string * Notice :=
  if bool_decide (selected_coin_id ∈ watchlist) then
    (watchlist, Info "This coin is already in your watchlist.")
  else (watchlist ++ [selected_coin_id], Success "Added to watchlist!").

(** [l.remove(x)]: the first occurrence goes; [ValueError] when there is
    none. *)
Fixpoint list_remove (l : list string) (x : string) : Result (list string) :=
  match l with
  | [] => Raise ValueError
  | y :: l' =>
      if String.eqb y x then Return l'
      else
        match list_remove l' x with
        | Return l'' => Return (y :: l'')
        | Raise e => Raise e
        end
  end.

(** The "Remove" button of a watchlist row, once [coin_id] is known. *)
Definition remove_from_watchlist (watchlist : list string) (coin_id : string)
    : Result (list string) :=
  if bool_decide (coin_id ∈ watchlist) then list_remove watchlist coin_id
  else Return watchlist.

(** ** Notions the properties are stated with *)

(** A non-expired cache entry exists for the key at time [now]. *)
Definition has_fresh_entry (st : State) (now : Z) (cache_key : string) : Prop :=
  is_Some (CACHE st !! cache_key) ∧ default 0 (CACHE_EXPIRY st !! cache_key) > now.

(** The request [get_top_coins limit] stands for. *)
Definition top_coins_request (limit : Z) : Request :=
  (BASE_URL +:+ "/coins/markets",
   Some [("vs_currency", VStr "usd"); ("order", VStr "market_cap_desc");
         ("per_page", VInt limit); ("page", VInt 1); ("sparkline", VBool false);
         ("price_change_percentage", VStr "1h,24h,7d")]).

(** The latest record of a coin in a snapshot. *)
Definition latest_coin (snapshot : list MarketCoin) (coin_id : string)
    : option MarketCoin :=
  find (λ coin, String.eqb (mc_id coin) coin_id) (rev snapshot).

(** The latest price of a coin: none when the snapshot lacks the coin
    or has [null] for its price; 0 when the record has no price key. *)
Definition latest_price (snapshot : list MarketCoin) (coin_id : string) : option Z :=
  coin ← latest_coin snapshot coin_id; get_or (mc_current_price coin) 0.

(** No held coin has [null] for price or symbol in its latest record. *)
Definition well_priced (snapshot : list MarketCoin)
    (holdings_in : list (string * Z)) : Prop :=
  Forall (λ h : string * Z,
            ∀ coin, latest_coin snapshot (fst h) = Some coin →
                    mc_current_price coin ≠ Null ∧ mc_symbol coin ≠ Null)
         holdings_in.

(** The valued holding of a held coin, when the snapshot has the coin
    with a price and a symbol. *)
Definition item_of (snapshot : list MarketCoin) (h : string * Z)
    : option PortfolioItem :=
  coin ← latest_coin snapshot (fst h);
  coin_price ← get_or (mc_current_price coin) 0;
  coin_symbol ← get_or (mc_symbol coin) "";
  Some {| item_id := fst h;
          item_symbol := Py.upper coin_symbol;
          item_name := get_or (mc_name coin) "";
          item_amount := snd h;
          item_price := coin_price;
          item_value := snd h * coin_price;
          item_price_change_24h := get_or (mc_price_change_percentage_24h coin) 0;
          item_image := get_or (mc_image coin) "" |}.

(** The values of the held coins the snapshot has, in the order of the
    holdings. *)
Definition priced_values (snapshot : list MarketCoin)
    (holdings_in : list (string * Z)) : list Z :=
  omap (λ h : string * Z, (λ p, snd h * p) <$> latest_price snapshot (fst h))
       holdings_in.

(** A total as the loop accumulates it: from 0, one value after the
    other. *)
Definition running_total (values : list Z) : Z := fold_left Z.add values 0.

Definition total (l : list Z) : Z := foldr Z.add 0 l.

(** An entry of the market-cap mapping as the chart labels it. *)
Definition labelled (kv : string * Z) : string * Z := (Py.upper (fst kv), snd kv).

Definition request_key (str : option Params → string) (req : Request) : string :=
  cache_key_of str (fst req) (snd req).

(** The responses on which the request of [get_with_cache] fails: the
    client raised, the status is 4XX or 5XX, or the body is not JSON. *)
Definition fails (r : Response) : Prop :=
  match r with
  | RequestFailed => True
  | Http status_code json => 400 ≤ status_code < 600 ∨ json = None
  end.


(** What [calculate_portfolio_value] makes of the payload it fetched,
    for holdings that are not empty. *)
Definition valuation_of (holdings_in : list (string * Z)) (all_coins : Payload)
    : Result Valuation :=
  if negb (truthy all_coins) then
    Return {| total_value := 0; holdings := [];
              error := Some "Failed to fetch coin data" |}
  else
    match all_coins with
    | JCoins coins =>
        match for_holdings (build_coin_prices coins) (0, []) holdings_in with
        | Return (sum, portfolio_items) =>
            Return {| total_value := sum;
                      holdings := Py.sorted item_value true portfolio_items;
                      error := None |}
        | Raise e => Raise e
        end
    | _ => Raise TypeError
    end.

(** Every cached key has an expiry, and conversely. *)
Definition cache_consistent (st : State) : Prop :=
  dom (CACHE st) = dom (CACHE_EXPIRY st).

(** The request [get_coin_history] builds for a given interval. *)
Definition history_request (coin_id days interval : string) : Request :=
  (BASE_URL +:+ "/coins/" +:+ coin_id +:+ "/market_chart",
   Some [("vs_currency", VStr "usd"); ("days", VStr days);
         ("interval", VStr interval)]).

(** A portfolio as the page keeps it: one entry per coin, every amount
    positive. *)
Definition well_formed_portfolio (portfolio : list (string * Z)) : Prop :=
  NoDup (map fst portfolio) ∧ Forall (λ kv : string * Z, 0 < snd kv) portfolio.

(** The coin matches the query, by name or by symbol. *)
Definition named_like (lower : string → string) (search_query : string)
    (coin : MarketCoin) : Prop :=
  (∃ name, mc_name coin = Value name ∧
           Str.contains (lower search_query) (lower name) = true)
  ∨ (∃ symbol, mc_symbol coin = Value symbol ∧
               Str.contains (lower search_query) (lower symbol) = true).

(** ** Concrete inputs for the examples *)

(** [str(params)] for keys and strings free of quotes and escapes. *)
Definition repr_value (v : pyval) : string :=
  match v with
  | VStr s => "'" +:+ s +:+ "'"
  | VInt n => pretty n
  | VBool true => "True"
  | VBool false => "False"
  end.

Fixpoint repr_items (items : Params) : string :=
  match items with
  | [] => ""
  | [(k, v)] => "'" +:+ k +:+ "': " +:+ repr_value v
  | (k, v) :: rest => "'" +:+ k +:+ "': " +:+ repr_value v +:+ ", " +:+ repr_items rest
  end.

Definition repr_params (params : option Params) : string :=
  match params with
  | None => "None"
  | Some items => "{" +:+ repr_items items +:+ "}"
  end.

Definition coin (id : string) (price change : Z) : MarketCoin :=
  {| mc_id := id; mc_symbol := Value id; mc_name := Value id; mc_image := Absent;
     mc_current_price := Value price;
     mc_price_change_percentage_24h := Value change |}.

(** Records with a [null]: the price, the symbol, the 24h change. *)
Definition null_priced (id : string) : MarketCoin :=
  {| mc_id := id; mc_symbol := Value id; mc_name := Value id; mc_image := Absent;
     mc_current_price := Null;
     mc_price_change_percentage_24h := Value 0 |}.


Definition null_change (id : string) (price : Z) : MarketCoin :=
  {| mc_id := id; mc_symbol := Value id; mc_name := Value id; mc_image := Absent;
     mc_current_price := Value price;
     mc_price_change_percentage_24h := Null |}.

Definition cold : State :=
  {| CACHE := ∅; CACHE_EXPIRY := ∅; sent := []; stdout := [] |}.

(** A network that answers every request with the same response. *)
Definition answering (r : Response) (now : Z) : Env :=
  {| requests_get := λ _, r; time_time := now |}.

(** A network that serves one snapshot, and one that is down. *)
Definition up (snapshot : list MarketCoin) (now : Z) : Env :=
  answering (Http 200 (Some (JCoins snapshot))) now.

Definition down (now : Z) : Env := answering RequestFailed now.

Definition only_A : list MarketCoin := [coin "A" 7 1].

(** A cache holding [null] for the request ("u", None) until 1060. *)
Definition warm : State :=
  {| CACHE := {[cache_key_of repr_params "u" None := JNull]};
     CACHE_EXPIRY := {[cache_key_of repr_params "u" None := 1060]};
     sent := []; stdout := [] |}.

(** The snapshot of the movers example: changes +5, -3, 0, +10, -1. *)
Definition movers_snapshot : list MarketCoin :=
  [coin "a" 1 5; coin "b" 1 (-3); coin "c" 1 0; coin "e" 1 10; coin "f" 1 (-1)].

(** A network that serves one price series. *)
Definition chart_env (prices : list (Z * Z)) (now : Z) : Env :=
  answering (Http 200 (Some (JChart [("prices", prices)]))) now.

(** A row of the holdings table. *)
Definition item (id name : string) (amount price : Z) : PortfolioItem :=
  {| item_id := id; item_symbol := Py.upper id; item_name := Some name;
     item_amount := amount; item_price := price; item_value := amount * price;
     item_price_change_24h := Some 0; item_image := Some "" |}.

(** Two coins that go by one name. *)
Definition same_named : list PortfolioItem :=
  [item "usd-coin" "USD Coin" 5 1; item "bridged-usdc" "USD Coin" 3 1].

(** A record of the markets list without its name. *)
Definition nameless : MarketCoin :=
  {| mc_id := "x"; mc_symbol := Value "x"; mc_name := Absent; mc_image := Absent;
     mc_current_price := Value 1; mc_price_change_percentage_24h := Absent |}.

(** [s.lower()] on ASCII text, for the examples. *)
Definition ascii_lower_char (c : ascii) : ascii :=
  let n := nat_of_ascii c in
  if ((65 <=? n) && (n <=? 90))%nat then ascii_of_nat (n + 32) else c.

Fixpoint ascii_lower (s : string) : string :=
  match s with
  | EmptyString => EmptyString
  | String c s' => String (ascii_lower_char c) (ascii_lower s')
  end.

(** * Properties *)

(** ** The stable sort *)

Section SortingFacts.
Context {A : Type} (key : A → Z).

Lemma before_in_order reverse x y :
  Py.before key reverse x y = true → Py.in_order key reverse x y.
Proof. unfold Py.before, Py.in_order. destruct reverse; intros H%Z.ltb_lt; lia. Qed.

Lemma not_before_in_order reverse x y :
  Py.before key reverse y x = false → Py.in_order key reverse x y.
Proof. unfold Py.before, Py.in_order. destruct reverse; intros H%Z.ltb_ge; lia. Qed.

Lemma before_key_ne reverse x y :
  Py.before key reverse x y = true → key x ≠ key y.
Proof. unfold Py.before. destruct reverse; intros H%Z.ltb_lt; lia. Qed.

Lemma in_order_trans reverse x y z :
  Py.in_order key reverse x y → Py.in_order key reverse y z →
  Py.in_order key reverse x z.
Proof. unfold Py.in_order. destruct reverse; lia. Qed.

Lemma insert_sorted_perm reverse x s :
  Py.insert_sorted key reverse x s ≡ₚ x :: s.
Proof.
  induction s as [|y s IH]; simpl; [done|].
  destruct (Py.before key reverse y x); [|done].
  rewrite IH. apply Permutation_swap.
Qed.

Lemma sorted_perm reverse l : Py.sorted key reverse l ≡ₚ l.
Proof.
  induction l as [|x l IH]; simpl; [done|].
  by rewrite insert_sorted_perm, IH.
Qed.

Lemma insert_sorted_ordered reverse x s :
  StronglySorted (Py.in_order key reverse) s →
  StronglySorted (Py.in_order key reverse) (Py.insert_sorted key reverse x s).
Proof.
  induction 1 as [|y s Hs IH Hy]; simpl.
  - repeat constructor.
  - destruct (Py.before key reverse y x) eqn:Hb.
    + constructor; [done|].
      rewrite insert_sorted_perm. constructor; [|done].
      by apply before_in_order.
    + apply not_before_in_order in Hb.
      constructor; [by constructor|].
      constructor; [done|].
      eapply Forall_impl; [exact Hy|]. intros z Hz. by eapply in_order_trans.
Qed.

Lemma sorted_ordered reverse l :
  StronglySorted (Py.in_order key reverse) (Py.sorted key reverse l).
Proof.
  induction l as [|x l IH]; simpl; [constructor|].
  by apply insert_sorted_ordered.
Qed.

Lemma insert_sorted_filter reverse x s k :
  filter (λ y, key y = k) (Py.insert_sorted key reverse x s)
  = filter (λ y, key y = k) (x :: s).
Proof.
  induction s as [|y s IH]; simpl; [done|].
  destruct (Py.before key reverse y x) eqn:Hb; [|done].
  apply before_key_ne in Hb.
  rewrite filter_cons, IH, !filter_cons.
  repeat case_decide; congruence.
Qed.

Lemma sorted_filter reverse l k :
  filter (λ y, key y = k) (Py.sorted key reverse l) = filter (λ y, key y = k) l.
Proof.
  induction l as [|x l IH]; simpl; [done|].
  by rewrite insert_sorted_filter, !filter_cons, IH.
Qed.

Lemma sorted_stable reverse l :
  Py.stable_sort_of key reverse l (Py.sorted key reverse l).
Proof.
  split; [apply sorted_perm|]. split; [apply sorted_ordered|].
  intros k. apply sorted_filter.
Qed.
End SortingFacts.

(** ** The cache-backed fetcher *)

Section FetcherFacts.
Context (str : option Params → string).

Lemma request_json_raises r e :
  request_json r = Raise e → is_RequestException e = true.
Proof.
  destruct r as [|code [data|]]; simpl; [by intros [= <-]|..];
    unfold raise_for_status; destruct (bool_decide _); simpl;
    by intros [= <-].
Qed.

Lemma fresh_test st now key :
  bool_decide (is_Some (CACHE st !! key))
  && bool_decide (default 0 (CACHE_EXPIRY st !! key) > now) = true
  ↔ has_fresh_entry st now key.
Proof.
  unfold has_fresh_entry.
  rewrite andb_true_iff, !bool_decide_eq_true. done.
Qed.

Lemma get_with_cache_hit url params ttl env st data :
  CACHE st !! cache_key_of str url params = Some data →
  default 0 (CACHE_EXPIRY st !! cache_key_of str url params) > time_time env →
  get_with_cache str url params ttl env st = (Return data, st).
Proof.
  intros Hc He. unfold get_with_cache. cbv zeta.
  rewrite (proj2 (fresh_test _ _ _)) by (split; [by eexists|done]).
  by rewrite Hc.
Qed.

Lemma get_with_cache_miss url params ttl env st :
  ¬ has_fresh_entry st (time_time env) (cache_key_of str url params) →
  get_with_cache str url params ttl env st =
    match request_json (requests_get env (url, params)) with
    | Return data =>
        (Return data,
         {| CACHE := <[cache_key_of str url params := data]> (CACHE st);
            CACHE_EXPIRY :=
              <[cache_key_of str url params := time_time env + ttl]> (CACHE_EXPIRY st);
            sent := sent st ++ [(url, params)]; stdout := stdout st |})
    | Raise e =>
        (Return JNull,
         {| CACHE := CACHE st; CACHE_EXPIRY := CACHE_EXPIRY st;
            sent := sent st ++ [(url, params)];
            stdout := stdout st ++ ["API request error: " +:+ exn_name e] |})
    end.
Proof.
  intros Hn. unfold get_with_cache. cbv zeta.
  destruct (_ && _) eqn:Hb; [by apply fresh_test in Hb|].
  simpl. destruct (request_json _) as [data|e] eqn:Hr; [done|].
  by rewrite (request_json_raises _ _ Hr).
Qed.

(** C2. While a non-expired entry exists for the key of (url, params),
    the fetch returns the stored payload and leaves the whole state as it
    was: no request is sent, nothing is written. Without such an entry
    (none yet, or its expiry has passed) exactly one request is sent; when
    it succeeds the payload is returned and stored with expiry
    [now + ttl], so that a second fetch of the same pair before that
    instant returns the same payload with no request, and a fetch at or
    after it sends a new request. *)
Theorem cached_fetch url params ttl env st :
  let key := cache_key_of str url params in
  (∀ data,
     CACHE st !! key = Some data →
     default 0 (CACHE_EXPIRY st !! key) > time_time env →
     get_with_cache str url params ttl env st = (Return data, st))
  ∧ (¬ has_fresh_entry st (time_time env) key →
     ∃ r st',
       get_with_cache str url params ttl env st = (r, st') ∧
       sent st' = sent st ++ [(url, params)] ∧
       ∀ data, request_json (requests_get env (url, params)) = Return data →
         r = Return data ∧
         CACHE st' = <[key := data]> (CACHE st) ∧
         CACHE_EXPIRY st' = <[key := time_time env + ttl]> (CACHE_EXPIRY st) ∧
         ∀ env2 ttl2,
           (time_time env2 < time_time env + ttl →
            get_with_cache str url params ttl2 env2 st' = (Return data, st')) ∧
           (time_time env + ttl ≤ time_time env2 →
            sent (get_with_cache str url params ttl2 env2 st').2
            = sent st' ++ [(url, params)])).
Proof.
  intros key. split.
  - intros data. apply get_with_cache_hit.
  - intros Hn. rewrite get_with_cache_miss by done. fold key.
    destruct (request_json _) as [data|e] eqn:Hr.
    + eexists _, _. split; [done|]. split; [done|].
      intros ? [= <-]. repeat split.
      * intros Ht. apply get_with_cache_hit; simpl; fold key.
        -- apply lookup_insert_eq.
        -- rewrite lookup_insert_eq. simpl. lia.
      * intros Ht. rewrite get_with_cache_miss.
        -- by destruct (request_json (requests_get env2 _)).
        -- unfold has_fresh_entry. simpl. fold key.
           intros [_ Hx]. rewrite lookup_insert_eq in Hx. simpl in Hx. lia.
    + eexists _, _. split; [done|]. split; [done|]. intros; done.
Qed.

Lemma fails_raises r : fails r ↔ ∃ e, request_json r = Raise e.
Proof.
  destruct r as [|code json]; simpl; [split; [by eauto|done]|].
  unfold raise_for_status. case_bool_decide as Hc; simpl.
  - split; [by eauto|]. by left.
  - destruct json as [data|]; split.
    + intros [?|?]; [lia|done].
    + by intros [? ?].
    + by eauto.
    + by right.
Qed.

Lemma failed_request_returns_none url params ttl env st :
  ¬ has_fresh_entry st (time_time env) (cache_key_of str url params) →
  fails (requests_get env (url, params)) →
  ∃ e,
    get_with_cache str url params ttl env st
    = (Return JNull,
       {| CACHE := CACHE st; CACHE_EXPIRY := CACHE_EXPIRY st;
          sent := sent st ++ [(url, params)];
          stdout := stdout st ++ ["API request error: " +:+ exn_name e] |}).
Proof.
  intros Hn [e He]%fails_raises. exists e.
  by rewrite get_with_cache_miss, He by done.
Qed.


Lemma get_with_cache_returns url params ttl env st :
  ∃ data, (get_with_cache str url params ttl env st).1 = Return data.
Proof.
  destruct (decide (has_fresh_entry st (time_time env) (cache_key_of str url params)))
    as [[[data Hd] He]|Hn].
  - rewrite (get_with_cache_hit _ _ _ _ _ _ Hd He). by eexists.
  - rewrite get_with_cache_miss by done.
    destruct (request_json _); by eexists.
Qed.

(** A fetch repeated at once, against the same network, gives what the
    first one gave. *)
Lemma get_with_cache_repeat url params ttl env st :
  0 < ttl →
  (get_with_cache str url params ttl env
     (get_with_cache str url params ttl env st).2).1
  = (get_with_cache str url params ttl env st).1.
Proof.
  intros Httl.
  destruct (decide (has_fresh_entry st (time_time env) (cache_key_of str url params)))
    as [[[data Hd] He]|Hn].
  - by rewrite !(get_with_cache_hit _ _ _ _ _ _ Hd He).
  - rewrite (get_with_cache_miss _ _ _ _ st) by done.
    destruct (request_json _) as [data|e] eqn:Hr; simpl.
    + rewrite (get_with_cache_hit _ _ _ _ _ data); [done|..]; simpl.
      * apply lookup_insert_eq.
      * rewrite lookup_insert_eq. simpl. lia.
    + rewrite get_with_cache_miss by done. by rewrite Hr.
Qed.
End FetcherFacts.

Lemma cold_not_fresh now key : ¬ has_fresh_entry cold now key.
Proof. intros [[data Hd] _]. simpl in Hd. by rewrite lookup_empty in Hd. Qed.

Lemma cached_fetch_witness :
  get_with_cache repr_params "u" None 60 (down 1059)
    (get_with_cache repr_params "u" None 60 (up only_A 1000) cold).2
  = (Return (JCoins only_A),
     (get_with_cache repr_params "u" None 60 (up only_A 1000) cold).2)
  ∧ sent (get_with_cache repr_params "u" None 60 (up only_A 1000) cold).2
    = [("u", None)]
  ∧ get_with_cache repr_params "u" None 60 (down 1059) warm = (Return JNull, warm).
Proof.
  destruct (cached_fetch repr_params "u" None 60 (up only_A 1000) cold)
    as [_ Hmiss].
  destruct (Hmiss (cold_not_fresh _ _)) as (r & st' & Heq & Hsent & Hok).
  destruct (Hok (JCoins only_A) eq_refl) as (_ & _ & _ & Hnext).
  rewrite Heq. simpl. split; [|split].
  - apply (Hnext (down 1059) 60). simpl. lia.
  - exact Hsent.
  - apply (cached_fetch repr_params "u" None 60 (down 1059) warm).
    + apply lookup_singleton_eq.
    + simpl. rewrite lookup_singleton_eq. simpl. lia.
Defined.



(** ** The portfolio aggregator *)

Lemma latest_coin_snoc snapshot c cid :
  latest_coin (snapshot ++ [c]) cid
  = if String.eqb (mc_id c) cid then Some c else latest_coin snapshot cid.
Proof. unfold latest_coin. by rewrite rev_unit. Qed.

Lemma build_coin_prices_lookup snapshot cid :
  build_coin_prices snapshot !! cid = coin_data_of <$> latest_coin snapshot cid.
Proof.
  unfold build_coin_prices.
  induction snapshot as [|c snapshot IH] using rev_ind; [done|].
  rewrite fold_left_app, latest_coin_snoc. simpl.
  destruct (String.eqb_spec (mc_id c) cid) as [->|Hne].
  - by rewrite lookup_insert_eq.
  - by rewrite lookup_insert_ne.
Qed.

(** One turn of the loop, by what the snapshot has for the coin. *)
Lemma add_holding_spec snapshot sum items h :
  add_holding (build_coin_prices snapshot) (sum, items) h
  = match latest_coin snapshot h.1 with
    | None => Return (sum, items)
    | Some coin =>
        match mc_current_price coin with
        | Null => Raise TypeError
        | _ =>
            match mc_symbol coin with
            | Null => Raise AttributeError
            | _ =>
                match item_of snapshot h with
                | Some it => Return (sum + item_value it, items ++ [it])
                | None => Return (sum, items)
                end
            end
        end
    end.
Proof.
  destruct h as [cid amount]. unfold add_holding, item_of.
  rewrite build_coin_prices_lookup. cbn [fst snd].
  destruct (latest_coin snapshot cid) as [c|]; simpl; [|done].
  by destruct (mc_current_price c), (mc_symbol c).
Qed.

Lemma omap_step {A B} (f : A → option B) x l :
  omap f (x :: l) = match f x with Some y => [y] | None => [] end ++ omap f l.
Proof. simpl. by destruct (f x). Qed.

Lemma well_priced_cons snapshot h hs :
  well_priced snapshot (h :: hs)
  ↔ (∀ coin, latest_coin snapshot h.1 = Some coin →
             mc_current_price coin ≠ Null ∧ mc_symbol coin ≠ Null)
    ∧ well_priced snapshot hs.
Proof. unfold well_priced. by rewrite Forall_cons. Qed.

(** The whole loop: it runs through exactly when no held coin has a
    [null] price or symbol, and then adds the values in the order of the
    holdings. *)
Lemma for_holdings_spec snapshot hs sum items :
  (well_priced snapshot hs ∧
   for_holdings (build_coin_prices snapshot) (sum, items) hs
   = Return (fold_left Z.add (map item_value (omap (item_of snapshot) hs)) sum,
             items ++ omap (item_of snapshot) hs))
  ∨ (¬ well_priced snapshot hs ∧
     ∃ e, for_holdings (build_coin_prices snapshot) (sum, items) hs = Raise e ∧
          (e = TypeError ∨ e = AttributeError)).
Proof.
  revert sum items. induction hs as [|h hs IH]; intros sum items.
  - left. split; [constructor|]. simpl. by rewrite app_nil_r.
  - cbn [for_holdings]. rewrite add_holding_spec, well_priced_cons, omap_step.
    destruct (latest_coin snapshot h.1) as [c|] eqn:Hc.
    + destruct (mc_current_price c) eqn:Hp.
      2:{ right. split; [|by eauto]. intros [Hh _].
          destruct (Hh c eq_refl) as [? _]. done. }
      all: destruct (mc_symbol c) eqn:Hs.
      all: try (right; split; [|by eauto]; intros [Hh _];
                destruct (Hh c eq_refl) as [_ ?]; done).
      all: assert (∃ it, item_of snapshot h = Some it) as [it Hit]
        by (unfold item_of; rewrite Hc; simpl; rewrite Hp, Hs; simpl; by eexists).
      all: rewrite Hit.
      all: destruct (IH (sum + item_value it) (items ++ [it]))
        as [[Hwp ->]|[Hwp (e & -> & He)]].
      all: try (left; split;
                [split; [by intros c' [= <-]; rewrite Hp, Hs|done]
                |simpl; by rewrite <- app_assoc]).
      all: right; split; [by intros [_ ?]|by eauto].
    + assert (item_of snapshot h = None) as ->
        by (unfold item_of; by rewrite Hc).
      destruct (IH sum items) as [[Hwp ->]|[Hwp (e & -> & He)]].
      * left. split; [by split|done].
      * right. split; [by intros [_ ?]|by eauto].
Qed.

Lemma item_of_id snapshot h it : item_of snapshot h = Some it → item_id it = h.1.
Proof.
  unfold item_of. destruct (latest_coin _ _) as [c|]; simpl; [|done].
  destruct (get_or (mc_current_price c) 0); simpl; [|done].
  destruct (get_or (mc_symbol c) ""); simpl; [|done]. by intros [= <-].
Qed.

Lemma item_of_value snapshot h it :
  item_of snapshot h = Some it →
  item_amount it = h.2 ∧
  latest_price snapshot h.1 = Some (item_price it) ∧
  item_value it = item_amount it * item_price it.
Proof.
  unfold item_of, latest_price.
  destruct (latest_coin _ _) as [c|]; simpl; [|done].
  destruct (get_or (mc_current_price c) 0); simpl; [|done].
  destruct (get_or (mc_symbol c) ""); simpl; [|done]. by intros [= <-].
Qed.

(** For a held coin without [null], the item is missing exactly when
    the snapshot lacks the coin. *)
Lemma item_of_well_priced snapshot h :
  (∀ coin, latest_coin snapshot h.1 = Some coin →
           mc_current_price coin ≠ Null ∧ mc_symbol coin ≠ Null) →
  (is_Some (item_of snapshot h) ↔ is_Some (latest_coin snapshot h.1)) ∧
  item_value <$> item_of snapshot h
  = (λ p, h.2 * p) <$> latest_price snapshot h.1.
Proof.
  intros Hh. unfold item_of, latest_price.
  destruct (latest_coin snapshot h.1) as [c|]; simpl.
  - destruct (Hh c eq_refl) as [Hp Hs].
    destruct (mc_current_price c), (mc_symbol c); simpl; try done;
      (split; [split; by eexists|done]).
  - split; [done|done].
Qed.

Lemma valued_ids snapshot hs :
  well_priced snapshot hs →
  map item_id (omap (item_of snapshot) hs)
  = filter (λ cid, is_Some (latest_coin snapshot cid)) (map fst hs).
Proof.
  induction hs as [|h hs IH]; [done|].
  intros [Hh Hwp]%well_priced_cons.
  rewrite omap_step, map_app, IH by done. cbn [map]. rewrite filter_cons.
  destruct (item_of_well_priced snapshot h Hh) as [Hiff _].
  destruct (item_of snapshot h) as [it|] eqn:Hit.
  - rewrite decide_True by (apply Hiff; by eexists).
    simpl. by rewrite (item_of_id _ _ _ Hit).
  - rewrite decide_False; [done|]. rewrite <- Hiff. by intros [? ?].
Qed.

Lemma valued_values snapshot hs :
  well_priced snapshot hs →
  map item_value (omap (item_of snapshot) hs) = priced_values snapshot hs.
Proof.
  unfold priced_values. induction hs as [|h hs IH]; [done|].
  intros [Hh Hwp]%well_priced_cons.
  rewrite !omap_step, map_app, IH by done. f_equal.
  destruct (item_of_well_priced snapshot h Hh) as [_ Heq].
  destruct (item_of snapshot h), (latest_price snapshot h.1);
    simpl in *; congruence.
Qed.

Lemma valued_by_key snapshot hs k :
  well_priced snapshot hs →
  map item_id (filter (λ it, item_value it = k) (omap (item_of snapshot) hs))
  = map fst (filter (λ h : string * Z,
                       (λ p, h.2 * p) <$> latest_price snapshot h.1 = Some k) hs).
Proof.
  induction hs as [|h hs IH]; [done|].
  intros [Hh Hwp]%well_priced_cons.
  rewrite omap_step, (filter_cons _ h), filter_app, map_app, IH by done.
  destruct (item_of_well_priced snapshot h Hh) as [_ Heq].
  rewrite <- Heq.
  destruct (item_of snapshot h) as [it|] eqn:Hit; simpl.
  - rewrite filter_cons, filter_nil.
    pose proof (item_of_id _ _ _ Hit) as Hid.
    destruct (decide (item_value it = k)) as [Hk|Hk].
    + rewrite decide_True by congruence. simpl. by rewrite Hid.
    + rewrite decide_False by congruence. done.
  - done.
Qed.

Lemma nothing_priced holdings_in : omap (item_of []) holdings_in = [].
Proof. by induction holdings_in. Qed.

Lemma nothing_to_misprice holdings_in : well_priced [] holdings_in.
Proof. apply Forall_forall. by intros h _ c. Qed.

(** What the loop makes of a snapshot. *)
Lemma valuation_of_snapshot holdings_in snapshot :
  (well_priced snapshot holdings_in ∧
   valuation_of holdings_in (JCoins snapshot)
   = Return
       (if bool_decide (snapshot = []) then
          {| total_value := 0; holdings := [];
             error := Some "Failed to fetch coin data" |}
        else
          {| total_value :=
               running_total (map item_value (omap (item_of snapshot) holdings_in));
             holdings :=
               Py.sorted item_value true (omap (item_of snapshot) holdings_in);
             error := None |}))
  ∨ (¬ well_priced snapshot holdings_in ∧
     ∃ e, valuation_of holdings_in (JCoins snapshot) = Raise e ∧
          (e = TypeError ∨ e = AttributeError)).
Proof.
  unfold valuation_of. simpl. case_bool_decide as Hs; simpl.
  - left. subst snapshot. split; [apply nothing_to_misprice|done].
  - destruct (for_holdings_spec snapshot holdings_in 0 [])
      as [[Hwp ->]|[Hwp (e & -> & He)]]; [left|right; by eauto].
    by split.
Qed.

Section AggregatorFacts.
Context (str : option Params → string).

Lemma calculate_portfolio_value_empty env st :
  calculate_portfolio_value str [] env st
  = (Return {| total_value := 0; holdings := []; error := None |}, st).
Proof. done. Qed.

Lemma calculate_portfolio_value_fetches holdings_in env st :
  holdings_in ≠ [] →
  calculate_portfolio_value str holdings_in env st
  = match get_top_coins str 250 env st with
    | (Return all_coins, st') => (valuation_of holdings_in all_coins, st')
    | (Raise e, st') => (Raise e, st')
    end.
Proof.
  intros Hne. unfold calculate_portfolio_value.
  rewrite bool_decide_eq_false_2 by done.
  unfold mbind, M_bind.
  destruct (get_top_coins str 250 env st) as [[all_coins|e] st']; [|done].
  unfold valuation_of.
  destruct (negb (truthy all_coins)); [done|].
  destruct all_coins as [|coins|series]; try done.
  by destruct (for_holdings _ _ _) as [[sum items]|e].
Qed.

Lemma get_top_coins_request limit :
  get_top_coins str limit
  = get_with_cache str (top_coins_request limit).1 (top_coins_request limit).2
      CACHE_DURATION.
Proof. done. Qed.

Lemma get_top_coins_returns limit env st :
  ∃ all_coins, (get_top_coins str limit env st).1 = Return all_coins.
Proof. apply get_with_cache_returns. Qed.

Lemma valuation_fst holdings_in env st all_coins :
  holdings_in ≠ [] →
  (get_top_coins str 250 env st).1 = Return all_coins →
  (calculate_portfolio_value str holdings_in env st).1
  = valuation_of holdings_in all_coins.
Proof.
  intros Hne Hf. rewrite calculate_portfolio_value_fetches by done.
  destruct (get_top_coins str 250 env st) as [r st']. simpl in Hf. by subst r.
Qed.

Lemma valuation_snd holdings_in env st :
  holdings_in ≠ [] →
  (calculate_portfolio_value str holdings_in env st).2
  = (get_top_coins str 250 env st).2.
Proof.
  intros Hne. rewrite calculate_portfolio_value_fetches by done.
  by destruct (get_top_coins str 250 env st) as [[?|?] st'].
Qed.

(** The valuation of a snapshot: returned exactly when no held coin has
    a [null] price or symbol. *)
Lemma valuation_cases holdings_in snapshot env st :
  (get_top_coins str 250 env st).1 = Return (JCoins snapshot) →
  (well_priced snapshot holdings_in ∧
   ∃ v, (calculate_portfolio_value str holdings_in env st).1 = Return v ∧
        total_value v = running_total (map item_value (omap (item_of snapshot) holdings_in)) ∧
        holdings v ≡ₚ omap (item_of snapshot) holdings_in ∧
        StronglySorted (λ a b, item_value b ≤ item_value a) (holdings v) ∧
        ∀ k, filter (λ it, item_value it = k) (holdings v)
             = filter (λ it, item_value it = k) (omap (item_of snapshot) holdings_in))
  ∨ (¬ well_priced snapshot holdings_in ∧
     ∃ e, (calculate_portfolio_value str holdings_in env st).1 = Raise e ∧
          (e = TypeError ∨ e = AttributeError)).
Proof.
  intros Hf. destruct (decide (holdings_in = [])) as [->|Hne].
  - left. split; [constructor|]. eexists. split; [done|].
    repeat split; constructor.
  - rewrite (valuation_fst _ _ _ _ Hne Hf).
    destruct (valuation_of_snapshot holdings_in snapshot)
      as [[Hwp ->]|[Hwp (e & -> & He)]]; [left|right; by eauto].
    split; [done|]. eexists. split; [done|].
    case_bool_decide as Hs; simpl.
    + subst snapshot. rewrite nothing_priced. repeat split; constructor.
    + split; [done|]. split; [apply sorted_perm|].
      split; [apply (sorted_ordered item_value true)|].
      intros k. apply sorted_filter.
Qed.

(** C7. An empty portfolio is valued 0 with an empty list and no
    error key, without any fetch. For holdings that are not empty, a
    failed snapshot fetch gives 0 and an empty list again, now with the
    error key set. *)
Theorem empty_and_failed_valuations env st :
  calculate_portfolio_value str [] env st
  = (Return {| total_value := 0; holdings := []; error := None |}, st)
  ∧ ∀ holdings_in,
      holdings_in ≠ [] →
      ¬ has_fresh_entry st (time_time env) (request_key str (top_coins_request 250)) →
      fails (requests_get env (top_coins_request 250)) →
      (calculate_portfolio_value str holdings_in env st).1
      = Return {| total_value := 0; holdings := [];
                  error := Some "Failed to fetch coin data" |}.
Proof.
  split; [done|]. intros holdings_in Hne Hn Hfail.
  apply (valuation_fst _ _ _ JNull); [done|].
  rewrite get_top_coins_request.
  by destruct (failed_request_returns_none str _ _ CACHE_DURATION env st Hn Hfail)
    as [e ->].
Qed.

(** C9. Valuing the same holdings twice in a row in the same
    environment gives the same result, whatever the first call wrote to
    the cache; and two calls, in any two states, that are served the same
    price data return the same result. *)
Theorem aggregator_idempotent holdings_in :
  (∀ env st,
     (calculate_portfolio_value str holdings_in env
        (calculate_portfolio_value str holdings_in env st).2).1
     = (calculate_portfolio_value str holdings_in env st).1)
  ∧ (∀ env1 st1 env2 st2,
       (get_top_coins str 250 env1 st1).1 = (get_top_coins str 250 env2 st2).1 →
       (calculate_portfolio_value str holdings_in env1 st1).1
       = (calculate_portfolio_value str holdings_in env2 st2).1).
Proof.
  destruct (decide (holdings_in = [])) as [->|Hne]; [by split|].
  split.
  - intros env st. rewrite valuation_snd by done.
    destruct (get_top_coins_returns 250 env st) as [all_coins Hf].
    rewrite (valuation_fst _ _ st all_coins) by done.
    apply valuation_fst; [done|]. rewrite <- Hf.
    unfold get_top_coins. apply get_with_cache_repeat. done.
  - intros env1 st1 env2 st2 Heq.
    destruct (get_top_coins_returns 250 env1 st1) as [all_coins Hf].
    rewrite (valuation_fst _ _ st1 all_coins) by done.
    rewrite (valuation_fst _ _ st2 all_coins); [done..|]. by rewrite <- Heq.
Qed.
End AggregatorFacts.

Lemma up_serves snapshot now :
  (get_top_coins repr_params 250 (up snapshot now) cold).1 = Return (JCoins snapshot).
Proof.
  rewrite get_top_coins_request, get_with_cache_miss by apply cold_not_fresh.
  done.
Qed.

(** C1. A held coin whose record in the snapshot has [null] for its
    price makes the valuation raise [TypeError] at
    [amount * coin_data['current_price']]: for holdings {A: 1} and such
    a record of A, no total is returned.
    [.get('current_price', 0)] puts 0 for a missing key but lets a
    [null] through. *)
Theorem null_price_raises :
  (calculate_portfolio_value repr_params [("A", 1)]
     (up [null_priced "A"] 0) cold).1
  = Raise TypeError.
Proof. by vm_compute. Qed.


(** Holdings {A: 2, B: 3} at prices A = 10, B = 5 are worth 35, A (20)
    listed before B (15). *)
Example valuation_of_two_holdings :
  (calculate_portfolio_value repr_params [("B", 3); ("A", 2)]
     (up [coin "A" 10 0; coin "B" 5 0] 0) cold).1
  = Return {| total_value := 35;
              holdings :=
                [{| item_id := "A"; item_symbol := "A"; item_name := Some "A";
                    item_amount := 2; item_price := 10; item_value := 20;
                    item_price_change_24h := Some 0; item_image := Some "" |};
                 {| item_id := "B"; item_symbol := "B"; item_name := Some "B";
                    item_amount := 3; item_price := 5; item_value := 15;
                    item_price_change_24h := Some 0; item_image := Some "" |}];
              error := None |}.
Proof. by vm_compute. Qed.

Lemma failed_valuation_witness :
  (calculate_portfolio_value repr_params [("A", 1)] (down 0) cold).1
  = Return {| total_value := 0; holdings := [];
              error := Some "Failed to fetch coin data" |}.
Proof.
  apply (proj2 (empty_and_failed_valuations repr_params (down 0) cold)).
  - done.
  - apply cold_not_fresh.
  - simpl. exact I.
Defined.

Lemma aggregator_idempotent_witness :
  (calculate_portfolio_value repr_params [("A", 2)] (up only_A 0) cold).1
  = (calculate_portfolio_value repr_params [("A", 2)] (down 30)
       (get_top_coins repr_params 250 (up only_A 0) cold).2).1.
Proof.
  apply (proj2 (aggregator_idempotent repr_params [("A", 2)])).
  vm_compute. reflexivity.
Defined.

(** ** The history query *)

Section HistoryFacts.
Context (str : option Params → string) (to_datetime : Z → option Z).

(** The numeric windows of the slider get the documented granularity. *)
Lemma numeric_windows_interval :
  Forall (λ tf,
            tf = "max" ∨
            ∃ n, Py.int (Py.remove_char "d" tf) = Some n ∧
                 interval_of (Py.remove_char "d" tf)
                 = Return (if bool_decide (7 < n) then "daily" else "hourly"))
         timeframe_options.
Proof.
  unfold timeframe_options.
  repeat (constructor; [first [by left | right; eexists; split; reflexivity]|]).
  constructor.
Qed.

(** A failed fetch, or an empty payload, gives no series. *)
Lemma history_absent coin_id days interval env st :
  interval_of days = Return interval →
  ¬ has_fresh_entry st (time_time env)
      (cache_key_of str (BASE_URL +:+ "/coins/" +:+ coin_id +:+ "/market_chart")
         (Some [("vs_currency", VStr "usd"); ("days", VStr days);
                ("interval", VStr interval)])) →
  fails (requests_get env
           (BASE_URL +:+ "/coins/" +:+ coin_id +:+ "/market_chart",
            Some [("vs_currency", VStr "usd"); ("days", VStr days);
                  ("interval", VStr interval)])) →
  (get_coin_history str to_datetime coin_id days env st).1 = Return None.
Proof.
  intros Hi Hn Hf. unfold get_coin_history. rewrite Hi.
  unfold mbind, M_bind.
  by destruct (failed_request_returns_none str _ _ CACHE_DURATION env st Hn Hf)
    as [e ->].
Qed.

Lemma history_absent_on_empty coin_id days interval env st data :
  interval_of days = Return interval →
  (get_with_cache str
     (BASE_URL +:+ "/coins/" +:+ coin_id +:+ "/market_chart")
     (Some [("vs_currency", VStr "usd"); ("days", VStr days);
            ("interval", VStr interval)])
     CACHE_DURATION env st).1 = Return data →
  truthy data = false →
  (get_coin_history str to_datetime coin_id days env st).1 = Return None.
Proof.
  intros Hi Hd Ht. unfold get_coin_history. rewrite Hi.
  unfold mbind, M_bind.
  destruct (get_with_cache _ _ _ _ _ _) as [r st']. simpl in Hd. subst r.
  by rewrite Ht.
Qed.

Lemma history_never_raises_after_int coin_id days interval env st :
  interval_of days = Return interval →
  ∃ df, (get_coin_history str to_datetime coin_id days env st).1 = Return df.
Proof.
  intros Hi. unfold get_coin_history. rewrite Hi. unfold mbind, M_bind.
  match goal with |- context [get_with_cache str ?u ?p ?d env st] =>
    destruct (get_with_cache_returns str u p d env st) as [data Hd];
    destruct (get_with_cache str u p d env st) as [r st'] end.
  simpl in Hd. subst r.
  destruct (negb (truthy data)); [by eexists|].
  destruct data as [|coins|series]; try by eexists.
  destruct (frame_of _ _); by eexists.
Qed.

(** C6. The all-time window of the dashboard slider makes the history
    query raise [ValueError] at [int(days)], before any request is
    built: no granularity is requested and the exception is not caught. *)
Theorem max_window_raises coin_id env st :
  "max" ∈ timeframe_options ∧
  home_history str to_datetime coin_id "max" env st = (Raise ValueError, st).
Proof. split; [|done]. unfold timeframe_options. set_solver. Qed.
End HistoryFacts.

(** ** Market dominance bucketing *)

Lemma sum_total l : Py.sum l = total l.
Proof.
  unfold Py.sum, total.
  assert (∀ a, fold_left Z.add l a = a + foldr Z.add 0 l) as H.
  { induction l as [|x l IH]; intros a; simpl; [lia|]. rewrite IH. lia. }
  by rewrite H.
Qed.

Lemma upper_ascii_not_lower c : Py.upper_ascii c ≠ "t"%char.
Proof. by destruct c as [[] [] [] [] [] [] [] []]. Qed.

Lemma upper_not_Others s : Py.upper s ≠ "Others".
Proof.
  destruct s as [|c1 [|c2 s]]; simpl; try done.
  intros [= _ H _]. by apply upper_ascii_not_lower in H.
Qed.

Lemma dominance_chart_data_cases m :
  dominance_chart_data m
  = if bool_decide (8 < length m)%nat then
      take 8 (Py.sorted snd true (map labelled m))
      ++ [("Others", Py.sum (map snd (drop 8 (Py.sorted snd true (map labelled m)))))]
    else Py.sorted snd true (map labelled m).
Proof.
  unfold dominance_chart_data. fold labelled.
  change (λ kv : string * Z, (Py.upper kv.1, kv.2)) with labelled.
  rewrite (Permutation_length (sorted_perm snd true (map labelled m))), length_map.
  case_bool_decide as Hl.
  - by rewrite (proj2 (Nat.ltb_lt _ _) Hl).
  - by rewrite (proj2 (Nat.ltb_ge _ _)) by lia.
Qed.

(** C4. The bucketing works on the entries sorted by percentage,
    descending, entries of equal percentage staying in the iteration
    order of the mapping (the symbols are upper-cased before the sort).
    The first 8 buckets are the first 8 sorted entries as they are; the
    entries after them, when there are any, are summed into one bucket
    labelled Others that comes last. Ten symbols with percentages 30, 20,
    15, 10, 8, 6, 4, 3, 2, 2 give 9 buckets, the last being Others = 4. *)
Theorem dominance_buckets m :
  (∃ sorted_data,
     Py.stable_sort_of snd true (map labelled m) sorted_data ∧
     take 8 (dominance_chart_data m) = take 8 sorted_data ∧
     drop 8 (dominance_chart_data m)
     = if bool_decide (drop 8 sorted_data = []) then []
       else [("Others", total (map snd (drop 8 sorted_data)))])
  ∧ ∀ s0 s1 s2 s3 s4 s5 s6 s7 s8 s9,
      dominance_chart_data
        [(s0, 30); (s1, 20); (s2, 15); (s3, 10); (s4, 8);
         (s5, 6); (s6, 4); (s7, 3); (s8, 2); (s9, 2)]
      = [(Py.upper s0, 30); (Py.upper s1, 20); (Py.upper s2, 15);
         (Py.upper s3, 10); (Py.upper s4, 8); (Py.upper s5, 6);
         (Py.upper s6, 4); (Py.upper s7, 3); ("Others", 4)].
Proof.
  split; [|done].
  exists (Py.sorted snd true (map labelled m)).
  split; [apply sorted_stable|].
  rewrite dominance_chart_data_cases.
  pose proof (Permutation_length (sorted_perm snd true (map labelled m))) as Hlen.
  rewrite length_map in Hlen.
  case_bool_decide as Hl.
  - rewrite take_app_length', drop_app_length' by (rewrite length_take; lia).
    split; [done|]. rewrite bool_decide_eq_false_2, sum_total; [done|].
    intros Hd. apply (f_equal length) in Hd. rewrite length_drop in Hd.
    simpl in Hd. lia.
  - split; [done|]. rewrite drop_ge by lia. done.
Qed.

(** C10. With 8 entries or fewer the chart data are exactly the
    entries, symbols upper-cased, in descending stable order of
    percentage: as many buckets as entries, and none labelled Others. *)
Theorem few_entries_no_others m :
  (length m ≤ 8)%nat →
  Py.stable_sort_of snd true (map labelled m) (dominance_chart_data m) ∧
  length (dominance_chart_data m) = length m ∧
  "Others" ∉ map fst (dominance_chart_data m).
Proof.
  intros Hl. rewrite dominance_chart_data_cases.
  rewrite bool_decide_eq_false_2 by lia.
  split; [apply sorted_stable|]. split.
  - by rewrite (Permutation_length (sorted_perm snd true _)), length_map.
  - rewrite (sorted_perm snd true). intros Hin.
    apply list_elem_of_fmap in Hin as ([k v] & Heq & Hin).
    apply list_elem_of_fmap in Hin as ([k' v'] & [= -> ->] & _).
    simpl in Heq. by apply (upper_not_Others k').
Qed.

Lemma few_entries_witness :
  Py.stable_sort_of snd true (map labelled [("btc", 50); ("eth", 20); ("xrp", 50)])
    (dominance_chart_data [("btc", 50); ("eth", 20); ("xrp", 50)]) ∧
  length (dominance_chart_data [("btc", 50); ("eth", 20); ("xrp", 50)]) = 3%nat ∧
  "Others" ∉ map fst (dominance_chart_data [("btc", 50); ("eth", 20); ("xrp", 50)]).
Proof.
  apply (few_entries_no_others [("btc", 50); ("eth", 20); ("xrp", 50)]).
  simpl. lia.
Defined.

(** ** Movers ranking *)

Lemma coins_where_filter test (P : Z → Prop) `{!∀ z, Decision (P z)} coins :
  (∀ z, test z = true ↔ P z) →
  Forall (λ c, mc_price_change_percentage_24h c ≠ Null) coins →
  coins_where test coins = Return (filter (λ c, P (change_key c)) coins).
Proof.
  intros Htest. induction 1 as [|c coins Hc _ IH]; [done|].
  cbn [coins_where]. rewrite IH, filter_cons. unfold change_key, change_24h.
  destruct (mc_price_change_percentage_24h c) as [| |change]; [|done|]; simpl.
  - destruct (test 0) eqn:Ht.
    + by rewrite decide_True by by apply Htest.
    + rewrite decide_False; [done|]. rewrite <- Htest. congruence.
  - destruct (test change) eqn:Ht.
    + by rewrite decide_True by by apply Htest.
    + rewrite decide_False; [done|]. rewrite <- Htest. congruence.
Qed.

Lemma coins_where_returns test coins selected :
  coins_where test coins = Return selected →
  Forall (λ c, mc_price_change_percentage_24h c ≠ Null) coins.
Proof.
  revert selected. induction coins as [|c coins IH]; intros selected; [constructor|].
  cbn [coins_where]. unfold change_24h.
  destruct (mc_price_change_percentage_24h c) eqn:Hc; simpl; [|done|];
    (destruct (coins_where test coins) as [sel|] eqn:Hrest; [|done]);
    intros _; (constructor; [by rewrite Hc|by eapply IH]).
Qed.

Lemma top_gainers_spec coins :
  Forall (λ c, mc_price_change_percentage_24h c ≠ Null) coins →
  top_gainers coins
  = Return (take 5 (Py.sorted change_key true
                      (filter (λ c, 0 < change_key c) coins))).
Proof.
  intros Hc. unfold top_gainers.
  by rewrite (coins_where_filter _ (λ z, 0 < z)) by (done || intros z; apply Z.ltb_lt).
Qed.

Lemma top_losers_spec coins :
  Forall (λ c, mc_price_change_percentage_24h c ≠ Null) coins →
  top_losers coins
  = Return (take 5 (Py.sorted change_key false
                      (filter (λ c, change_key c < 0) coins))).
Proof.
  intros Hc. unfold top_losers.
  by rewrite (coins_where_filter _ (λ z, z < 0)) by (done || intros z; apply Z.ltb_lt).
Qed.

(** C5. A record with [null] for its 24h change leaves the dashboard
    without a ranking: on the snapshot (a: +5, n: null, b: -3) the
    comparison [None > 0] of the gainers comprehension raises
    [TypeError], and so does [None < 0] of the losers.
    [.get('price_change_percentage_24h', 0)] puts 0 for a missing key
    but lets a [null] through. *)
Theorem null_change_raises :
  top_gainers [coin "a" 1 5; null_change "n" 1; coin "b" 1 (-3)] = Raise TypeError ∧
  top_losers [coin "a" 1 5; null_change "n" 1; coin "b" 1 (-3)] = Raise TypeError.
Proof. by vm_compute. Qed.

(** * Further properties *)

(** ** The cache *)

Section FetcherMore.
Context (str : option Params → string).


(** X2. A fetch touches only its own cache key: the payload and the
    expiry stored under any other key are what they were. *)
Theorem fetch_leaves_other_keys url params ttl env st k :
  k ≠ cache_key_of str url params →
  CACHE (get_with_cache str url params ttl env st).2 !! k = CACHE st !! k ∧
  CACHE_EXPIRY (get_with_cache str url params ttl env st).2 !! k
  = CACHE_EXPIRY st !! k.
Proof.
  intros Hk.
  destruct (decide (has_fresh_entry st (time_time env) (cache_key_of str url params)))
    as [[[data Hd] He]|Hn].
  - by rewrite (get_with_cache_hit _ _ _ _ _ _ _ Hd He).
  - rewrite get_with_cache_miss by done.
    destruct (request_json _); simpl; [|done].
    by rewrite !lookup_insert_ne.
Qed.

(** X3. If every cached key has an expiry and conversely, that is still so
    after a fetch; and a fetch never drops a key from the cache. *)
Theorem fetch_keeps_cache_consistent url params ttl env st :
  cache_consistent st →
  cache_consistent (get_with_cache str url params ttl env st).2 ∧
  dom (CACHE st) ⊆ dom (CACHE (get_with_cache str url params ttl env st).2).
Proof.
  unfold cache_consistent. intros Hc.
  destruct (decide (has_fresh_entry st (time_time env) (cache_key_of str url params)))
    as [[[data Hd] He]|Hn].
  - by rewrite (get_with_cache_hit _ _ _ _ _ _ _ Hd He).
  - rewrite get_with_cache_miss by done.
    destruct (request_json _); simpl; [|done].
    rewrite !dom_insert_L. split; [by rewrite Hc|apply union_subseteq_r].
Qed.

Lemma stays_stale st now later key :
  ¬ has_fresh_entry st now key → now ≤ later → ¬ has_fresh_entry st later key.
Proof. unfold has_fresh_entry. intros Hn Hle [Hs He]. apply Hn. split; [done|lia]. Qed.

(** X4. A failure is not remembered: when a request was sent and failed,
    the next fetch of the same pair, at the same or a later time, sends
    the request again. *)
Theorem failed_fetch_is_retried url params ttl ttl2 env env2 st :
  ¬ has_fresh_entry st (time_time env) (cache_key_of str url params) →
  fails (requests_get env (url, params)) →
  time_time env ≤ time_time env2 →
  sent (get_with_cache str url params ttl2 env2
          (get_with_cache str url params ttl env st).2).2
  = sent st ++ [(url, params); (url, params)].
Proof.
  intros Hn Hf Hle.
  destruct (failed_request_returns_none str url params ttl env st Hn Hf) as [e ->].
  cbn [snd]. rewrite get_with_cache_miss.
  - destruct (request_json _); simpl; by rewrite <- app_assoc.
  - by apply (stays_stale st (time_time env)).
Qed.
End FetcherMore.

(** ** Valuations over time *)

Section AggregatorMore.
Context (str : option Params → string).

Lemma top_coins_fetched limit env st data :
  ¬ has_fresh_entry st (time_time env) (request_key str (top_coins_request limit)) →
  request_json (requests_get env (top_coins_request limit)) = Return data →
  get_top_coins str limit env st
  = (Return data,
     {| CACHE := <[request_key str (top_coins_request limit) := data]> (CACHE st);
        CACHE_EXPIRY :=
          <[request_key str (top_coins_request limit)
            := time_time env + CACHE_DURATION]> (CACHE_EXPIRY st);
        sent := sent st ++ [top_coins_request limit];
        stdout := stdout st |}).
Proof.
  intros Hn Hr.
  pose proof (get_with_cache_miss str (top_coins_request limit).1
                (top_coins_request limit).2 CACHE_DURATION env st Hn) as Hm.
  change ((top_coins_request limit).1, (top_coins_request limit).2)
    with (top_coins_request limit) in Hm.
  rewrite Hr in Hm. exact Hm.
Qed.

(** X5. When a valuation had to fetch the snapshot and the request
    succeeded, valuing the same holdings again less than 60 seconds later
    returns the same result and leaves the state untouched: no request is
    sent, whatever the network would answer by then. *)
Theorem valuation_reuses_snapshot holdings_in env env2 st data :
  ¬ has_fresh_entry st (time_time env) (request_key str (top_coins_request 250)) →
  request_json (requests_get env (top_coins_request 250)) = Return data →
  time_time env2 < time_time env + CACHE_DURATION →
  calculate_portfolio_value str holdings_in env2
    (calculate_portfolio_value str holdings_in env st).2
  = ((calculate_portfolio_value str holdings_in env st).1,
     (calculate_portfolio_value str holdings_in env st).2).
Proof.
  intros Hn Hr Ht.
  destruct (decide (holdings_in = [])) as [->|Hne]; [done|].
  rewrite (calculate_portfolio_value_fetches str holdings_in env st Hne).
  rewrite (top_coins_fetched _ _ _ _ Hn Hr).
  cbn [fst snd].
  rewrite calculate_portfolio_value_fetches by done.
  rewrite get_top_coins_request, (get_with_cache_hit _ _ _ _ _ _ data); [done|..].
  - apply lookup_insert_eq.
  - cbn [CACHE_EXPIRY]. unfold request_key.
    rewrite lookup_insert_eq. simpl. lia.
Qed.

(** X6. A request that succeeds with an empty list of coins is reported,
    for holdings that are not empty, with the same error key as a failed
    fetch; unlike a failure, the empty list is cached. *)
Theorem empty_snapshot_reported_as_failure holdings_in env st :
  holdings_in ≠ [] →
  ¬ has_fresh_entry st (time_time env) (request_key str (top_coins_request 250)) →
  request_json (requests_get env (top_coins_request 250)) = Return (JCoins []) →
  (calculate_portfolio_value str holdings_in env st).1
  = Return {| total_value := 0; holdings := [];
              error := Some "Failed to fetch coin data" |}
  ∧ CACHE (calculate_portfolio_value str holdings_in env st).2
      !! request_key str (top_coins_request 250) = Some (JCoins []).
Proof.
  intros Hne Hn Hr.
  rewrite calculate_portfolio_value_fetches by done.
  rewrite (top_coins_fetched _ _ _ _ Hn Hr). split; [done|].
  cbn [snd CACHE]. apply lookup_insert_eq.
Qed.
End AggregatorMore.

(** ** Valuations of a snapshot *)

Section ValuationFacts.
Context (str : option Params → string).

(** What a returned valuation is, and that one is returned only for
    holdings without a [null]. *)
Lemma valuation_returned holdings_in snapshot env st v :
  (get_top_coins str 250 env st).1 = Return (JCoins snapshot) →
  (calculate_portfolio_value str holdings_in env st).1 = Return v →
  well_priced snapshot holdings_in ∧
  total_value v = running_total (map item_value (omap (item_of snapshot) holdings_in)) ∧
  holdings v ≡ₚ omap (item_of snapshot) holdings_in ∧
  StronglySorted (λ a b, item_value b ≤ item_value a) (holdings v) ∧
  ∀ k, filter (λ it, item_value it = k) (holdings v)
       = filter (λ it, item_value it = k) (omap (item_of snapshot) holdings_in).
Proof.
  intros Hf Hv.
  destruct (valuation_cases str holdings_in snapshot env st Hf)
    as [[Hwp (v' & Hv' & Hrest)]|[_ (e & He & _)]]; [|congruence].
  split; [done|]. rewrite Hv in Hv'. by injection Hv' as <-.
Qed.

(** X25. When no held coin has [null] for its price or symbol in the
    snapshot, the valuation is returned; its [total_value] is the
    running total, in the order of the holdings, of amount × latest
    price over the held coins the snapshot has; the listed coins are
    exactly those, each with its amount and its latest price. A held
    coin the snapshot lacks is left out of both. *)
Theorem priced_holdings_total holdings_in snapshot env st :
  (get_top_coins str 250 env st).1 = Return (JCoins snapshot) →
  well_priced snapshot holdings_in →
  ∃ v,
    (calculate_portfolio_value str holdings_in env st).1 = Return v ∧
    total_value v = running_total (priced_values snapshot holdings_in) ∧
    map item_id (holdings v)
      ≡ₚ filter (λ cid, is_Some (latest_coin snapshot cid)) (map fst holdings_in) ∧
    ∀ it, it ∈ holdings v →
      (item_id it, item_amount it) ∈ holdings_in ∧
      latest_price snapshot (item_id it) = Some (item_price it) ∧
      item_value it = item_amount it * item_price it.
Proof.
  intros Hf Hwp.
  destruct (valuation_cases str holdings_in snapshot env st Hf)
    as [[_ (v & Hv & Htot & Hperm & _)]|[Hn _]]; [|done].
  exists v. split; [done|]. split; [by rewrite Htot, valued_values|]. split.
  - rewrite <- valued_ids by done. by rewrite Hperm.
  - intros it Hit. rewrite Hperm in Hit.
    apply list_elem_of_omap in Hit as ([cid amount] & Hin & Hof).
    pose proof (item_of_id _ _ _ Hof) as Hid.
    pose proof (item_of_value _ _ _ Hof) as (Ham & Hp & Hval).
    simpl in *. rewrite Hid, Ham. repeat split; [done..|]. by rewrite <- Ham.
Qed.

(** X26. When no held coin has [null] for its price or symbol in the
    snapshot, the listed holdings are in descending order of value, and
    the entries of any one value stand in the order their coins have in
    the holdings mapping. *)
Theorem priced_holdings_sorted holdings_in snapshot env st :
  (get_top_coins str 250 env st).1 = Return (JCoins snapshot) →
  well_priced snapshot holdings_in →
  ∃ v,
    (calculate_portfolio_value str holdings_in env st).1 = Return v ∧
    StronglySorted (λ a b, item_value b ≤ item_value a) (holdings v) ∧
    ∀ k,
      map item_id (filter (λ it, item_value it = k) (holdings v))
      = map fst (filter (λ h : string * Z,
                           (λ p, h.2 * p) <$> latest_price snapshot h.1 = Some k)
                        holdings_in).
Proof.
  intros Hf Hwp.
  destruct (valuation_cases str holdings_in snapshot env st Hf)
    as [[_ (v & Hv & _ & _ & Hsorted & Hstable)]|[Hn _]]; [|done].
  exists v. split; [done|]. split; [done|].
  intros k. by rewrite Hstable, valued_by_key.
Qed.

End ValuationFacts.

(** ** The history query and its chart *)

Section HistoryMore.
Context (str : option Params → string) (to_datetime : Z → option Z).

Lemma get_coin_history_unfold coin_id days n env st :
  Py.int days = Some n →
  get_coin_history str to_datetime coin_id days env st
  = match get_with_cache str
            (history_request coin_id days (if 7 <? n then "daily" else "hourly")).1
            (history_request coin_id days (if 7 <? n then "daily" else "hourly")).2
            CACHE_DURATION env st with
    | (Return data, st') =>
        (Return
           (if negb (truthy data) then None
            else match data with
                 | JChart series =>
                     match frame_of to_datetime (get_prices series) with
                     | Return df => Some df
                     | Raise _ => None
                     end
                 | _ => None
                 end), st')
    | (Raise e, st') => (Raise e, st')
    end.
Proof.
  intros Hi. unfold get_coin_history, interval_of. rewrite Hi.
  unfold mbind, M_bind. cbn [history_request fst snd].
  destruct (get_with_cache _ _ _ _ _ _) as [[data|e] st']; [|done].
  destruct (negb (truthy data)); [done|].
  destruct data as [|coins|series]; try done.
  by destruct (frame_of _ _).
Qed.

(** X7. For any [days] that [int] reads as n, the history query sends no
    request when its cache entry is fresh, and otherwise sends exactly
    one, whose interval parameter is daily when n > 7 and hourly when
    not. *)
Theorem history_interval_policy coin_id days n env st :
  Py.int days = Some n →
  let req := history_request coin_id days (if 7 <? n then "daily" else "hourly") in
  let st' := (get_coin_history str to_datetime coin_id days env st).2 in
  (has_fresh_entry st (time_time env) (request_key str req) → sent st' = sent st) ∧
  (¬ has_fresh_entry st (time_time env) (request_key str req) →
   sent st' = sent st ++ [req]).
Proof.
  intros Hi req st'. subst st'.
  rewrite (get_coin_history_unfold _ _ _ _ _ Hi). fold req. split.
  - intros [[data Hd] He].
    by rewrite (get_with_cache_hit str _ _ _ _ _ _ Hd He).
  - intros Hn. rewrite get_with_cache_miss by done.
    by destruct (request_json _).
Qed.


Lemma frame_of_complete prices df :
  frame_of to_datetime prices = Return df →
  map (λ r, (timestamp r, price r)) df = prices ∧
  Forall (λ r, to_datetime (timestamp r) = Some (date r)) df.
Proof.
  revert df. induction prices as [|[t p] prices IH]; intros df; simpl.
  - intros [= <-]. by split.
  - destruct (to_datetime t) as [d|] eqn:Hd.
    + destruct (frame_of to_datetime prices) as [rows|e]; [|done].
      intros [= <-]. destruct (IH rows eq_refl) as [IH1 IH2].
      split; [simpl; by rewrite IH1|by constructor].
    + by destruct (frame_of to_datetime prices).
Qed.

(** X9. A frame returned by the history query is complete: the fetched
    payload was a chart object, the rows are its price points, in order,
    each with the date of its timestamp; no partial frame is returned. *)
Theorem history_complete_or_absent coin_id days env st df :
  (get_coin_history str to_datetime coin_id days env st).1 = Return (Some df) →
  ∃ n series,
    Py.int days = Some n ∧
    (get_with_cache str
       (history_request coin_id days (if 7 <? n then "daily" else "hourly")).1
       (history_request coin_id days (if 7 <? n then "daily" else "hourly")).2
       CACHE_DURATION env st).1 = Return (JChart series) ∧
    map (λ r, (timestamp r, price r)) df = get_prices series ∧
    Forall (λ r, to_datetime (timestamp r) = Some (date r)) df.
Proof.
  intros Hr. destruct (Py.int days) as [n|] eqn:Hi.
  - exists n. rewrite (get_coin_history_unfold _ _ _ _ _ Hi) in Hr.
    destruct (get_with_cache _ _ _ _ _ _) as [[data|e] st1]; [|done].
    simpl in Hr. destruct (negb (truthy data)); [done|].
    destruct data as [|coins|series]; try done.
    destruct (frame_of _ _) as [rows|e] eqn:Hf; [|done].
    injection Hr as ->. exists series. split; [done|]. split; [done|].
    by apply frame_of_complete.
  - unfold get_coin_history, interval_of in Hr. by rewrite Hi in Hr.
Qed.

(** X10. On the dashboard, a numeric timeframe whose history request
    fails gives the chart that says no data is available; nothing is
    raised. *)
Theorem failed_history_shows_no_data coin_id coin_name timeframe n env st :
  Py.int (Py.remove_char "d" timeframe) = Some n →
  ¬ has_fresh_entry st (time_time env)
      (request_key str
         (history_request coin_id (Py.remove_char "d" timeframe)
            (if 7 <? n then "daily" else "hourly"))) →
  fails (requests_get env
           (history_request coin_id (Py.remove_char "d" timeframe)
              (if 7 <? n then "daily" else "hourly"))) →
  (home_price_chart str to_datetime coin_id coin_name timeframe env st).1
  = Return (NoData "No data available").
Proof.
  intros Hi Hn Hf. unfold home_price_chart, home_history, mbind, M_bind.
  rewrite (get_coin_history_unfold _ _ _ _ _ Hi).
  by destruct (failed_request_returns_none str _ _ CACHE_DURATION env st Hn Hf)
    as [e ->].
Qed.
End HistoryMore.

(** ** Charts and rankings *)

Lemma total_bounds l x : Forall (λ y, 0 ≤ y) l → x ∈ l → 0 ≤ x ≤ total l.
Proof.
  unfold total. induction 1 as [|y l Hy Hl IH]; [by intros ?%elem_of_nil|].
  assert (0 ≤ foldr Z.add 0 l) by (clear IH; induction Hl; simpl; lia).
  intros [->|Hin]%elem_of_cons; simpl; [lia|]. specialize (IH Hin). lia.
Qed.

Lemma running_total_bounds l x :
  Forall (λ y, 0 ≤ y) l → x ∈ l → 0 ≤ x ≤ running_total l.
Proof.
  intros Hl Hx. change (running_total l) with (Py.sum l).
  rewrite sum_total. by apply total_bounds.
Qed.

Lemma latest_coin_elem snapshot cid c :
  latest_coin snapshot cid = Some c → c ∈ snapshot.
Proof.
  unfold latest_coin. intros [Hin _]%find_some.
  apply list_elem_of_In. by apply in_rev.
Qed.

Lemma omap_nil_inv snapshot hs :
  well_priced snapshot hs →
  omap (item_of snapshot) hs = [] →
  Forall (λ h : string * Z, latest_coin snapshot h.1 = None) hs.
Proof.
  induction hs as [|h hs IH]; [constructor|].
  intros [Hh Hwp]%well_priced_cons. rewrite omap_step.
  destruct (item_of snapshot h) as [it|] eqn:Hit; [done|].
  intros Hnil. constructor; [|by apply IH].
  apply eq_None_not_Some.
  rewrite <- (proj1 (item_of_well_priced snapshot h Hh)), Hit. by intros [? ?].
Qed.

Lemma sorted_values {A} (f : A → Z) (l : list A) :
  StronglySorted (λ a b, f b ≤ f a) l →
  StronglySorted (λ a b : Z, b ≤ a) (map f l).
Proof.
  induction 1 as [|x l Hl IH Hx]; simpl; constructor; [done|].
  rewrite Forall_forall in Hx. apply Forall_forall.
  intros y (z & -> & Hz)%list_elem_of_fmap. by apply Hx.
Qed.

Lemma sorted_take {A} (R : A → A → Prop) n (l : list A) :
  StronglySorted R l → StronglySorted R (take n l).
Proof.
  intros Hs. revert n. induction Hs as [|x l Hl IH Hx]; intros [|n]; simpl;
    constructor; [done|].
  rewrite Forall_forall in Hx. apply Forall_forall.
  intros y Hy%subseteq_take. by apply Hx.
Qed.

Section ChartFacts.
Context (str : option Params → string).

(** X11. The allocation chart of a returned valuation: when it is a pie
    it has one slice for each held coin the snapshot has, as many labels
    as slices, the slices in descending order; when it is the annotation
    no held coin is in the snapshot and the total is 0. *)
Theorem portfolio_pie_shows_held_coins holdings_in snapshot env st v :
  (get_top_coins str 250 env st).1 = Return (JCoins snapshot) →
  (calculate_portfolio_value str holdings_in env st).1 = Return v →
  match create_portfolio_pie_chart v with
  | Annotation _ =>
      Forall (λ h : string * Z, latest_coin snapshot h.1 = None) holdings_in ∧
      total_value v = 0
  | Pie _ names values =>
      length names = length values ∧
      length values
      = length (filter (λ cid, is_Some (latest_coin snapshot cid))
                       (map fst holdings_in)) ∧
      StronglySorted (λ a b, b ≤ a) values
  end.
Proof.
  intros Hf Hv.
  destruct (valuation_returned str holdings_in snapshot env st v Hf Hv)
    as (Hwp & Htot & Hperm & Hsorted & _).
  unfold create_portfolio_pie_chart. cbv zeta.
  case_bool_decide as Hempty.
  - rewrite Hempty in Hperm. symmetry in Hperm. apply Permutation_nil_r in Hperm.
    split; [by apply omap_nil_inv|]. by rewrite Htot, Hperm.
  - split; [by rewrite !length_map|]. split; [|by apply sorted_values].
    rewrite <- valued_ids by done. rewrite !length_map.
    by apply Permutation_length.
Qed.

(** X12. With amounts and prices that are not negative, every value
    listed by a returned valuation lies between 0 and [total_value]. *)
Theorem holding_values_are_shares holdings_in snapshot env st v :
  (get_top_coins str 250 env st).1 = Return (JCoins snapshot) →
  (calculate_portfolio_value str holdings_in env st).1 = Return v →
  Forall (λ h : string * Z, 0 ≤ h.2) holdings_in →
  Forall (λ c, ∀ p, mc_current_price c = Value p → 0 ≤ p) snapshot →
  Forall (λ it, 0 ≤ item_value it ≤ total_value v) (holdings v).
Proof.
  intros Hf Hv Hamounts Hprices. apply Forall_forall. intros it Hit.
  destruct (valuation_returned str holdings_in snapshot env st v Hf Hv)
    as (_ & -> & Hperm & _).
  rewrite Hperm in Hit.
  apply running_total_bounds; [|by apply list_elem_of_fmap_2].
  apply Forall_forall. intros x (it' & -> & Hin)%list_elem_of_fmap.
  apply list_elem_of_omap in Hin as (h & Hh & Hof).
  unfold item_of in Hof.
  destruct (latest_coin snapshot h.1) as [c|] eqn:Hc; [|done]. simpl in Hof.
  rewrite Forall_forall in Hamounts. rewrite Forall_forall in Hprices.
  pose proof (Hprices c (latest_coin_elem _ _ _ Hc)) as Hp.
  specialize (Hamounts h Hh). simpl in Hamounts.
  destruct (mc_current_price c) as [| |p]; simpl in Hof; [|done|];
    (destruct (get_or (mc_symbol c) "") as [coin_symbol|]; simpl in Hof; [|done]);
    injection Hof as <-; simpl; [lia|].
  apply Z.mul_nonneg_nonneg; [done|]. by apply Hp.
Qed.
End ChartFacts.

(** X13. When the dominance chart is a pie, the market data had a data
    object with percentages, not empty; the pie has as many labels as
    slices: one for each entry when there are at most 8, and 9 when
    there are more. Its first 8 slices are percentages of the market
    data, in descending order. *)
Theorem dominance_chart_shape market_data title names values :
  create_market_dominance_chart market_data = Pie title names values →
  ∃ obj data percentages,
    market_data = Some obj ∧
    snd <$> find (λ kv, String.eqb (fst kv) "data") obj = Some data ∧
    market_cap_percentage data = Some percentages ∧
    percentages ≠ [] ∧
    length names = length values ∧
    length values
    = (if bool_decide (8 < length percentages)%nat then 9 else length percentages)%nat ∧
    StronglySorted (λ a b, b ≤ a) (take 8 values) ∧
    ∀ x, x ∈ take 8 values → x ∈ map snd percentages.
Proof.
  unfold create_market_dominance_chart.
  destruct market_data as [obj|]; [|done].
  destruct (snd <$> find _ obj) as [data|] eqn:Hdata; [|done].
  destruct (market_cap_percentage data) as [percentages|] eqn:Hp; simpl; [|done].
  case_bool_decide as Hne; [done|]. intros [= <- <- <-].
  exists obj, data, percentages. do 4 (split; [done|]).
  split; [by rewrite !length_map|].
  rewrite dominance_chart_data_cases.
  pose proof (sorted_perm snd true (map labelled percentages)) as Hperm.
  pose proof (Permutation_length Hperm) as Hlen. rewrite length_map in Hlen.
  pose proof (sorted_ordered snd true (map labelled percentages)) as Hsorted.
  assert (∀ x, x ∈ map snd (take 8 (Py.sorted snd true (map labelled percentages))) →
               x ∈ map snd percentages) as Hsub.
  { intros x (kv & -> & Hkv%subseteq_take)%list_elem_of_fmap.
    rewrite Hperm in Hkv. apply list_elem_of_fmap in Hkv as (kv' & -> & Hkv').
    unfold labelled. cbn [snd]. by apply (list_elem_of_fmap_2 snd). }
  assert (StronglySorted (λ a b : Z, b ≤ a)
            (map snd (take 8 (Py.sorted snd true (map labelled percentages)))))
    as Htop by (by apply sorted_values, sorted_take).
  case_bool_decide as Hl.
  - assert (length (map snd (take 8 (Py.sorted snd true (map labelled percentages))))
            = 8%nat) as Hlen8 by (rewrite length_map, length_take; lia).
    rewrite map_app, take_app_length' by done.
    split; [|done]. rewrite length_app, Hlen8. done.
  - split; [by rewrite length_map|]. by rewrite <- (fmap_take snd).
Qed.

(** X27. On a snapshot without a [null] 24h change the ranking is
    returned: the gainers are the first 5 of the coins with a positive
    change in descending stable order, the losers the first 5 of the
    coins with a negative change in ascending stable order; a coin whose
    change is zero, or whose record has no change key, is in neither
    list. *)
Theorem movers_ranking_without_null coins :
  Forall (λ c, mc_price_change_percentage_24h c ≠ Null) coins →
  ∃ gainers losers,
    Py.stable_sort_of change_key true
      (filter (λ coin, 0 < change_key coin) coins) gainers ∧
    top_gainers coins = Return (take 5 gainers) ∧
    Py.stable_sort_of change_key false
      (filter (λ coin, change_key coin < 0) coins) losers ∧
    top_losers coins = Return (take 5 losers) ∧
    ∀ coin, change_key coin = 0 →
      (coin ∉ take 5 gainers) ∧ (coin ∉ take 5 losers).
Proof.
  intros Hc. eexists _, _.
  split; [apply sorted_stable|]. split; [by apply top_gainers_spec|].
  split; [apply sorted_stable|]. split; [by apply top_losers_spec|].
  intros c Hz.
  split; intros Hin%subseteq_take; rewrite sorted_perm in Hin;
    apply list_elem_of_filter in Hin as [Hin _]; lia.
Qed.

(** X14. When the ranking is returned, each list has at most 5 coins and
    no coin is in both. A coin of the snapshot that is not among the
    gainers has a change no greater than that of any gainer shown; one
    that is not among the losers has a change no smaller than that of
    any loser shown. *)
Theorem movers_are_the_extremes coins gainers losers :
  top_gainers coins = Return gainers →
  top_losers coins = Return losers →
  (length gainers ≤ 5)%nat ∧
  (length losers ≤ 5)%nat ∧
  (∀ c, c ∈ gainers → c ∉ losers) ∧
  (∀ g c, g ∈ gainers → c ∈ coins → c ∉ gainers → change_key c ≤ change_key g) ∧
  (∀ l c, l ∈ losers → c ∈ coins → c ∉ losers → change_key l ≤ change_key c).
Proof.
  intros Hg Hl.
  assert (Forall (λ c, mc_price_change_percentage_24h c ≠ Null) coins) as Hc.
  { unfold top_gainers in Hg.
    destruct (coins_where _ coins) as [selected|] eqn:Hw; [|done].
    by eapply coins_where_returns. }
  rewrite top_gainers_spec in Hg by done. injection Hg as <-.
  rewrite top_losers_spec in Hl by done. injection Hl as <-.
  split; [rewrite length_take; lia|]. split; [rewrite length_take; lia|].
  assert (∀ reverse (P : MarketCoin → Prop) `{!∀ c, Decision (P c)} g c,
            g ∈ take 5 (Py.sorted change_key reverse (filter P coins)) →
            c ∈ coins → P c →
            c ∉ take 5 (Py.sorted change_key reverse (filter P coins)) →
            Py.in_order change_key reverse g c) as Hrank.
  { intros reverse P HP g c Hgin Hcin HPc Hnot.
    pose proof (sorted_ordered change_key reverse (filter P coins)) as Hs.
    rewrite <- (take_drop 5 (Py.sorted _ _ _)) in Hs.
    eapply StronglySorted_app_1_elem_of; [exact Hs|done|].
    assert (c ∈ Py.sorted change_key reverse (filter P coins)) as Hin.
    { rewrite sorted_perm. by apply list_elem_of_filter. }
    rewrite <- (take_drop 5 (Py.sorted _ _ _)) in Hin.
    apply elem_of_app in Hin as [?|?]; done. }
  assert (∀ reverse (P : MarketCoin → Prop) `{!∀ c, Decision (P c)} g,
            g ∈ take 5 (Py.sorted change_key reverse (filter P coins)) → P g)
    as Hmember.
  { intros reverse P HP g Hgin%subseteq_take. rewrite sorted_perm in Hgin.
    by apply list_elem_of_filter in Hgin as [? _]. }
  split; [|split].
  - intros c Hgin%Hmember Hlin%Hmember. lia.
  - intros g c Hgin Hcin Hnot.
    destruct (decide (0 < change_key c)) as [Hpos|Hneg].
    + apply (Hrank true _ _ g c Hgin Hcin Hpos Hnot).
    + apply Hmember in Hgin. lia.
  - intros l c Hlin Hcin Hnot.
    destruct (decide (change_key c < 0)) as [Hneg|Hpos].
    + apply (Hrank false _ _ l c Hlin Hcin Hneg Hnot).
    + apply Hmember in Hlin. lia.
Qed.

(** ** The portfolio and the watchlist in the session *)

Lemma dict_get_cons k' v' d k :
  Dict.get ((k', v') :: d) k = if String.eqb k' k then Some v' else Dict.get d k.
Proof. unfold Dict.get. simpl. by destruct (String.eqb k' k). Qed.

Lemma dict_get_set d k v k' :
  Dict.get (Dict.set d k v) k' = if String.eqb k k' then Some v else Dict.get d k'.
Proof.
  induction d as [|[k0 v0] d IH]; simpl.
  - rewrite dict_get_cons. by destruct (String.eqb k k').
  - destruct (String.eqb_spec k0 k) as [->|Hne]; rewrite !dict_get_cons.
    + by destruct (String.eqb k k').
    + rewrite IH. destruct (String.eqb_spec k0 k') as [->|?]; [|done].
      by rewrite (proj2 (String.eqb_neq k k')).
Qed.

Lemma dict_get_None d k : Dict.get d k = None ↔ k ∉ map fst d.
Proof.
  induction d as [|[k0 v0] d IH]; simpl.
  - split; [intros _; apply not_elem_of_nil|done].
  - rewrite dict_get_cons, not_elem_of_cons.
    destruct (String.eqb_spec k0 k) as [->|Hne]; [split; [done|by intros [? _]]|].
    rewrite IH. split; [by intros ?; split|by intros [_ ?]].
Qed.

Lemma dict_get_elem d k v : Dict.get d k = Some v → (k, v) ∈ d.
Proof.
  induction d as [|[k0 v0] d IH]; [done|].
  rewrite dict_get_cons. destruct (String.eqb_spec k0 k) as [->|Hne].
  - intros [= ->]. by left.
  - intros ?. right. by apply IH.
Qed.

Lemma dict_mem_get d k : Dict.mem d k = true ↔ is_Some (Dict.get d k).
Proof.
  induction d as [|[k0 v0] d IH]; simpl.
  - split; [done|by intros [? ?]].
  - rewrite dict_get_cons. destruct (String.eqb k0 k); simpl; [|done].
    split; [by eexists|done].
Qed.

Lemma dict_set_keys d k v :
  map fst (Dict.set d k v)
  = if Dict.mem d k then map fst d else map fst d ++ [k].
Proof.
  induction d as [|[k0 v0] d IH]; simpl; [done|].
  destruct (String.eqb k0 k); simpl; [done|].
  rewrite IH. by destruct (Dict.mem d k).
Qed.

Lemma dict_set_values d k v (P : Z → Prop) :
  Forall (λ kv : string * Z, P kv.2) d → P v →
  Forall (λ kv : string * Z, P kv.2) (Dict.set d k v).
Proof.
  intros Hd Hv. induction Hd as [|[k0 v0] d H0 Hd IH]; simpl.
  - by repeat constructor.
  - destruct (String.eqb k0 k); by constructor.
Qed.

Lemma dict_del_spec d k :
  Dict.mem d k = true →
  NoDup (map fst d) →
  ∃ d', Dict.del d k = Return d' ∧
        Dict.get d' k = None ∧
        (∀ k', k' ≠ k → Dict.get d' k' = Dict.get d k') ∧
        d' `sublist_of` d.
Proof.
  induction d as [|[k0 v0] d IH]; simpl; [done|].
  intros Hm [Hk0 Hnd]%NoDup_cons.
  destruct (String.eqb_spec k0 k) as [->|Hne].
  - exists d. split; [done|]. split; [by apply dict_get_None|]. split.
    + intros k' Hk'. rewrite dict_get_cons.
      by rewrite (proj2 (String.eqb_neq k k')).
    + by apply sublist_cons.
  - simpl in Hm. destruct (IH Hm Hnd) as (d' & -> & Hget & Hother & Hsub).
    exists ((k0, v0) :: d'). split; [done|]. split; [|split].
    + rewrite dict_get_cons. by rewrite (proj2 (String.eqb_neq k0 k)).
    + intros k' Hk'. rewrite !dict_get_cons, Hother by done. done.
    + by apply sublist_skip.
Qed.

Lemma well_formed_sublist p p' :
  p' `sublist_of` p → well_formed_portfolio p → well_formed_portfolio p'.
Proof.
  intros Hsub [Hnd Hpos]. split.
  - eapply (sublist_NoDup _ (map fst p)); [exact Hnd|]. by apply (fmap_sublist fst).
  - rewrite Forall_forall in Hpos. apply Forall_forall. intros x Hx.
    apply Hpos. by eapply elem_of_sublist.
Qed.

(** X15. Adding a positive amount of a coin makes its holding the former
    amount (0 if it was not held) plus the amount added, and changes no
    other holding. *)
Theorem add_accumulates portfolio coin_id amount :
  0 < amount →
  Dict.get (add_to_portfolio portfolio coin_id amount).1 coin_id
  = Some (default 0 (Dict.get portfolio coin_id) + amount)
  ∧ ∀ other, other ≠ coin_id →
      Dict.get (add_to_portfolio portfolio coin_id amount).1 other
      = Dict.get portfolio other.
Proof.
  intros Ha. unfold add_to_portfolio. rewrite (proj2 (Z.ltb_lt _ _) Ha). simpl.
  split.
  - by rewrite dict_get_set, String.eqb_refl.
  - intros other Hne. rewrite dict_get_set.
    by rewrite (proj2 (String.eqb_neq coin_id other)).
Qed.

(** X16. The add button keeps the portfolio well formed (one entry per
    coin, every amount positive), whatever amount is entered; the coins
    keep their order, a new coin going last. *)
Theorem add_keeps_portfolio_well_formed portfolio coin_id amount :
  well_formed_portfolio portfolio →
  well_formed_portfolio (add_to_portfolio portfolio coin_id amount).1 ∧
  (map fst (add_to_portfolio portfolio coin_id amount).1 = map fst portfolio
   ∨ ((coin_id ∉ map fst portfolio) ∧
      map fst (add_to_portfolio portfolio coin_id amount).1
      = map fst portfolio ++ [coin_id])).
Proof.
  intros [Hnd Hpos]. unfold add_to_portfolio.
  destruct (Z.ltb_spec 0 amount) as [Ha|Ha]; simpl; [|split; [by split|by left]].
  unfold well_formed_portfolio. rewrite dict_set_keys.
  destruct (Dict.mem portfolio coin_id) eqn:Hm.
  - split; [|by left]. split; [done|].
    apply dict_set_values; [done|].
    apply dict_mem_get in Hm as [v Hv]. rewrite Hv. simpl.
    apply dict_get_elem in Hv. rewrite Forall_forall in Hpos.
    specialize (Hpos _ Hv). simpl in Hpos. lia.
  - assert (Dict.get portfolio coin_id = None) as Hnone.
    { apply eq_None_not_Some. rewrite <- dict_mem_get. by rewrite Hm. }
    assert (coin_id ∉ map fst portfolio) as Hfresh by by apply dict_get_None.
    split; [|by right]. split.
    + apply NoDup_app. split; [done|]. split; [|apply NoDup_singleton].
      intros x Hx ->%list_elem_of_singleton. done.
    + apply dict_set_values; [done|]. rewrite Hnone. simpl. lia.
Qed.

Lemma find_by_unique_name items i row :
  NoDup (map item_name items) →
  items !! i = Some row →
  find (λ h, bool_decide (item_name h = item_name row)) items = Some row.
Proof.
  revert i. induction items as [|h items IH]; intros i; [done|].
  intros [Hh Hnd]%NoDup_cons Hi. simpl.
  destruct i as [|i]; simpl in Hi.
  - injection Hi as ->. by rewrite bool_decide_eq_true_2.
  - case_bool_decide as Heq.
    + exfalso. apply Hh. rewrite Heq.
      apply list_elem_of_fmap_2. by eapply list_elem_of_lookup_2.
    + by apply (IH i).
Qed.

Lemma find_first_named items j first name :
  items !! j = Some first →
  item_name first = name →
  (∀ k h, (k < j)%nat → items !! k = Some h → item_name h ≠ name) →
  find (λ h, bool_decide (item_name h = name)) items = Some first.
Proof.
  revert j. induction items as [|h items IH]; intros j; [done|].
  intros Hj Hname Hbefore. simpl. destruct j as [|j]; simpl in Hj.
  - injection Hj as ->. by rewrite bool_decide_eq_true_2.
  - rewrite bool_decide_eq_false_2 by (apply (Hbefore 0%nat); [lia|done]).
    apply (IH j); [done..|].
    intros k h' Hk Hh'. apply (Hbefore (S k)); [lia|done].
Qed.

Lemma remove_coin_spec portfolio id :
  NoDup (map fst portfolio) →
  ∃ p',
    (if Dict.mem portfolio id then Dict.del portfolio id else Return portfolio)
    = Return p' ∧
    Dict.get p' id = None ∧
    (∀ other, other ≠ id → Dict.get p' other = Dict.get portfolio other) ∧
    p' `sublist_of` portfolio.
Proof.
  intros Hnd. destruct (Dict.mem portfolio id) eqn:Hm.
  - by apply dict_del_spec.
  - exists portfolio. split; [done|]. split; [|done].
    apply eq_None_not_Some. rewrite <- dict_mem_get. by rewrite Hm.
Qed.

(** X18. When the names shown in the holdings table are all different, the
    Remove button of a row raises nothing, leaves the row's coin out of
    the portfolio, and changes no other holding. *)
Theorem remove_button_removes_its_row items i row portfolio :
  NoDup (map item_name items) →
  items !! i = Some row →
  well_formed_portfolio portfolio →
  ∃ p',
    remove_holding items i portfolio = Return p' ∧
    Dict.get p' (item_id row) = None ∧
    (∀ other, other ≠ item_id row → Dict.get p' other = Dict.get portfolio other) ∧
    well_formed_portfolio p'.
Proof.
  intros Hnames Hi Hwf. unfold remove_holding. rewrite Hi. cbv zeta.
  rewrite (find_by_unique_name _ _ _ Hnames Hi). simpl.
  destruct (remove_coin_spec portfolio (item_id row) (proj1 Hwf))
    as (p' & -> & Hgone & Hother & Hsub).
  exists p'. repeat split; try done; by apply (well_formed_sublist portfolio).
Qed.

(** X19. When an earlier row shows the same name for another coin, the
    Remove button of the later row removes the earlier row's coin and
    leaves its own coin's holding as it was. *)
Theorem same_name_hides_later_row items i j first row portfolio :
  (j < i)%nat →
  items !! j = Some first →
  items !! i = Some row →
  item_name first = item_name row →
  (∀ k h, (k < j)%nat → items !! k = Some h → item_name h ≠ item_name row) →
  item_id first ≠ item_id row →
  NoDup (map fst portfolio) →
  ∃ p',
    remove_holding items i portfolio = Return p' ∧
    Dict.get p' (item_id row) = Dict.get portfolio (item_id row) ∧
    Dict.get p' (item_id first) = None.
Proof.
  intros Hji Hj Hi Hname Hbefore Hid Hnd. unfold remove_holding. rewrite Hi.
  cbv zeta. rewrite (find_first_named _ _ _ _ Hj Hname Hbefore). simpl.
  destruct (remove_coin_spec portfolio (item_id first) Hnd)
    as (p' & -> & Hgone & Hother & _).
  exists p'. split; [done|]. split; [|done]. apply Hother. congruence.
Qed.

Lemma list_remove_spec l x :
  x ∈ l → NoDup l →
  ∃ l', list_remove l x = Return l' ∧ (x ∉ l') ∧ l' `sublist_of` l ∧
        ∀ y, y ≠ x → y ∈ l → y ∈ l'.
Proof.
  induction l as [|y l IH]; [by intros ?%elem_of_nil|].
  intros Hin [Hy Hnd]%NoDup_cons. simpl.
  destruct (String.eqb_spec y x) as [->|Hne].
  - exists l. split; [done|]. split; [done|]. split; [by apply sublist_cons|].
    intros z Hz [->|?]%elem_of_cons; done.
  - apply elem_of_cons in Hin as [->|Hin]; [done|].
    destruct (IH Hin Hnd) as (l' & -> & Hnot & Hsub & Hkeep).
    exists (y :: l'). split; [done|]. split; [|split].
    + rewrite not_elem_of_cons. by split.
    + by apply sublist_skip.
    + intros z Hz [->|?]%elem_of_cons; [by left|]. right. by apply Hkeep.
Qed.

Lemma list_remove_last l x : x ∉ l → list_remove (l ++ [x]) x = Return l.
Proof.
  induction l as [|y l IH]; simpl.
  - by rewrite String.eqb_refl.
  - intros [Hne Hnot]%not_elem_of_cons.
    rewrite (proj2 (String.eqb_neq y x)) by done. by rewrite IH.
Qed.

(** X20. A watchlist without duplicates stays so under the Add button; the
    coin added is in the list, adding it again changes nothing, and
    removing it raises nothing, leaves it out of the list, and gives back
    the former watchlist when the coin was new. *)
Theorem watchlist_stays_duplicate_free watchlist coin_id :
  NoDup watchlist →
  NoDup (add_to_watchlist watchlist coin_id).1 ∧
  coin_id ∈ (add_to_watchlist watchlist coin_id).1 ∧
  (add_to_watchlist (add_to_watchlist watchlist coin_id).1 coin_id).1
  = (add_to_watchlist watchlist coin_id).1 ∧
  ∃ w',
    remove_from_watchlist (add_to_watchlist watchlist coin_id).1 coin_id
    = Return w' ∧
    NoDup w' ∧ (coin_id ∉ w') ∧ ((coin_id ∉ watchlist) → w' = watchlist).
Proof.
  intros Hnd.
  assert (NoDup (add_to_watchlist watchlist coin_id).1
          ∧ coin_id ∈ (add_to_watchlist watchlist coin_id).1) as [Hnd' Hin].
  { unfold add_to_watchlist. case_bool_decide as Hc; simpl; [done|]. split.
    - apply NoDup_app. split; [done|]. split; [|apply NoDup_singleton].
      by intros x Hx ->%list_elem_of_singleton.
    - apply elem_of_app. right. by left. }
  split; [done|]. split; [done|]. split.
  - unfold add_to_watchlist at 1. by rewrite bool_decide_eq_true_2.
  - unfold remove_from_watchlist. rewrite bool_decide_eq_true_2 by done.
    destruct (list_remove_spec _ _ Hin Hnd') as (w' & Hw' & Hnot & Hsub & _).
    exists w'. split; [done|]. split; [by eapply sublist_NoDup|]. split; [done|].
    intros Hfresh. unfold add_to_watchlist in Hw'.
    rewrite bool_decide_eq_false_2 in Hw' by done. simpl in Hw'.
    rewrite list_remove_last in Hw' by done. by injection Hw'.
Qed.

(** X21. For a list of options that is not empty the default index of the
    coin selector is in range; it is the position of the first option
    whose id is bitcoin when there is one, and 0 when there is none. *)
Theorem default_coin_index_is_valid coin_options :
  coin_options ≠ [] →
  (default_coin_index coin_options < length coin_options)%nat ∧
  ((∃ o, o ∈ coin_options ∧ o.1 = "bitcoin") →
   ∃ o, coin_options !! default_coin_index coin_options = Some o ∧
        o.1 = "bitcoin" ∧
        ∀ j o', (j < default_coin_index coin_options)%nat →
                coin_options !! j = Some o' → o'.1 ≠ "bitcoin") ∧
  ((∀ o, o ∈ coin_options → o.1 ≠ "bitcoin") →
   default_coin_index coin_options = 0%nat).
Proof.
  intros Hne. unfold default_coin_index.
  destruct (list_find _ coin_options) as [[i o]|] eqn:Hfind; simpl.
  - apply list_find_Some in Hfind as (Hi & Ho & Hfirst).
    split; [by eapply lookup_lt_Some|]. split.
    + intros _. exists o. split; [done|]. split; [done|].
      intros j o' Hj Ho'. by apply (Hfirst j).
    + intros Hnone. exfalso. apply (Hnone o); [|done].
      by eapply list_elem_of_lookup_2.
  - apply list_find_None in Hfind. rewrite Forall_forall in Hfind.
    split; [destruct coin_options; simpl; [done|lia]|]. split; [|done].
    intros (o & Hin & Ho). by destruct (Hfind o Hin).
Qed.

(** ** The search of the market page *)

Lemma prefix_refl s : String.prefix s s = true.
Proof. induction s as [|c s IH]; simpl; [done|]. by destruct (ascii_dec c c). Qed.

Lemma contains_refl s : Str.contains s s = true.
Proof. destruct s as [|c s]; [done|]. cbn [Str.contains]. by rewrite prefix_refl. Qed.

Section SearchFacts.
Context (lower : string → string).

Lemma search_matches_spec search_query coin keep :
  search_matches lower search_query coin = Return keep →
  (keep = true ↔ named_like lower search_query coin).
Proof.
  unfold search_matches, named_like.
  destruct (mc_name coin) as [| |name]; [done..|].
  destruct (Str.contains _ (lower name)) eqn:Hn.
  - intros [= <-]. split; [|done]. intros _. left. by exists name.
  - destruct (mc_symbol coin) as [| |symbol]; [done..|]. intros [= <-]. split.
    + intros Hs. right. by exists symbol.
    + intros [(? & [= <-] & ?)|(? & [= <-] & ?)]; congruence.
Qed.

Lemma search_matches_raises search_query coin e :
  search_matches lower search_query coin = Raise e →
  e = KeyError ∨ e = AttributeError.
Proof.
  unfold search_matches.
  destruct (mc_name coin) as [| |name]; [intros [= <-]; by auto..|].
  destruct (Str.contains _ _); [done|].
  destruct (mc_symbol coin); [intros [= <-]; by auto..|done].
Qed.

Lemma search_raises search_query coins e :
  search_results lower search_query coins = Raise e →
  e = KeyError ∨ e = AttributeError.
Proof.
  revert e. induction coins as [|coin coins IH]; [done|]. simpl. intros e.
  destruct (search_matches lower search_query coin) as [keep|e'] eqn:Hm.
  - destruct (search_results lower search_query coins) as [found|e'']; [done|].
    intros [= <-]. by apply IH.
  - intros [= <-]. by eapply search_matches_raises.
Qed.

(** X23. When every coin has a name and a symbol, both strings, the
    search raises nothing and returns, in the order of the list, exactly
    the coins whose lower-cased name or symbol contains the lower-cased
    query; in particular every coin whose name lower-cases to the same
    string as the query. *)
Theorem search_finds_matching_coins search_query coins :
  Forall (λ coin, (∃ name, mc_name coin = Value name)
                  ∧ (∃ symbol, mc_symbol coin = Value symbol)) coins →
  ∃ found,
    search_results lower search_query coins = Return found ∧
    found `sublist_of` coins ∧
    (∀ coin, coin ∈ found ↔ coin ∈ coins ∧ named_like lower search_query coin) ∧
    (∀ coin name, coin ∈ coins → mc_name coin = Value name →
       lower name = lower search_query → coin ∈ found).
Proof.
  intros Hall.
  assert (∃ found,
            search_results lower search_query coins = Return found ∧
            found `sublist_of` coins ∧
            ∀ coin, coin ∈ found ↔ coin ∈ coins ∧ named_like lower search_query coin)
    as (found & Hf & Hsub & Hiff).
  { induction Hall as [|coin coins [[name Hn] [symbol Hs]] Hall IH].
    - exists []. split; [done|]. split; [done|].
      intros c. split; [by intros ?%elem_of_nil|by intros [?%elem_of_nil _]].
    - destruct IH as (found & Hf & Hsub & Hiff). simpl. rewrite Hf.
      destruct (search_matches lower search_query coin) as [keep|e] eqn:Hm.
      + pose proof (search_matches_spec _ _ _ Hm) as Hkeep.
        eexists. split; [done|]. destruct keep.
        * split; [by apply sublist_skip|]. intros c.
          rewrite !elem_of_cons, Hiff. split.
          -- intros [->|[? ?]]; [|by auto]. split; [by left|by apply Hkeep].
          -- intros [[->|?] ?]; auto.
        * split; [by apply sublist_cons|]. intros c.
          rewrite elem_of_cons, Hiff. split; [by intros [? ?]; auto|].
          intros [[->|?] Hc]; [|done].
          apply Hkeep in Hc. done.
      + unfold search_matches in Hm. rewrite Hn, Hs in Hm.
        by destruct (Str.contains _ _). }
  exists found. split; [done|]. split; [done|]. split; [done|].
  intros coin name Hin Hn Heq. apply Hiff. split; [done|].
  left. exists name. split; [done|]. rewrite Heq. apply contains_refl.
Qed.

(** X24. The search raises nothing but [KeyError] and [AttributeError],
    and one coin whose name is missing or [null] is enough for the whole
    search to raise. *)
Theorem search_needs_names search_query coins :
  (∀ e, search_results lower search_query coins = Raise e →
        e = KeyError ∨ e = AttributeError) ∧
  (∀ coin, coin ∈ coins → mc_name coin = Absent ∨ mc_name coin = Null →
     ∃ e, search_results lower search_query coins = Raise e).
Proof.
  split; [intros e; apply search_raises|].
  induction coins as [|c coins IH]; [by intros ? ?%elem_of_nil|].
  intros coin [->|Hin]%elem_of_cons Hname.
  - simpl. unfold search_matches. destruct Hname as [-> | ->]; by eexists.
  - destruct (IH coin Hin Hname) as [e He]. simpl. rewrite He.
    destruct (search_matches lower search_query c); by eexists.
Qed.
End SearchFacts.

(** ** Instances *)

Lemma fetch_leaves_other_keys_witness :
  CACHE (get_with_cache repr_params "v" None 60 (up only_A 2000) warm).2
    !! cache_key_of repr_params "u" None
  = CACHE warm !! cache_key_of repr_params "u" None
  ∧ CACHE_EXPIRY (get_with_cache repr_params "v" None 60 (up only_A 2000) warm).2
      !! cache_key_of repr_params "u" None
    = CACHE_EXPIRY warm !! cache_key_of repr_params "u" None.
Proof.
  apply (fetch_leaves_other_keys repr_params "v" None 60 (up only_A 2000) warm).
  vm_compute. discriminate.
Defined.

Lemma fetch_keeps_cache_consistent_witness :
  cache_consistent (get_with_cache repr_params "u" None 60 (up only_A 0) cold).2 ∧
  dom (CACHE cold)
  ⊆ dom (CACHE (get_with_cache repr_params "u" None 60 (up only_A 0) cold).2).
Proof.
  apply (fetch_keeps_cache_consistent repr_params "u" None 60 (up only_A 0) cold).
  reflexivity.
Defined.

Lemma failed_fetch_is_retried_witness :
  sent (get_with_cache repr_params "u" None 60 (down 5)
          (get_with_cache repr_params "u" None 60 (down 0) cold).2).2
  = sent cold ++ [("u", None); ("u", None)].
Proof.
  apply (failed_fetch_is_retried repr_params "u" None 60 60 (down 0) (down 5) cold).
  - apply cold_not_fresh.
  - simpl. exact I.
  - simpl. lia.
Defined.

Lemma valuation_reuses_snapshot_witness :
  calculate_portfolio_value repr_params [("A", 2)] (down 30)
    (calculate_portfolio_value repr_params [("A", 2)] (up only_A 0) cold).2
  = ((calculate_portfolio_value repr_params [("A", 2)] (up only_A 0) cold).1,
     (calculate_portfolio_value repr_params [("A", 2)] (up only_A 0) cold).2).
Proof.
  apply (valuation_reuses_snapshot repr_params [("A", 2)] (up only_A 0) (down 30)
           cold (JCoins only_A)).
  - apply cold_not_fresh.
  - reflexivity.
  - simpl. unfold CACHE_DURATION. lia.
Defined.

Lemma empty_snapshot_witness :
  (calculate_portfolio_value repr_params [("A", 2)] (up [] 0) cold).1
  = Return {| total_value := 0; holdings := [];
              error := Some "Failed to fetch coin data" |}
  ∧ CACHE (calculate_portfolio_value repr_params [("A", 2)] (up [] 0) cold).2
      !! request_key repr_params (top_coins_request 250) = Some (JCoins []).
Proof.
  apply (empty_snapshot_reported_as_failure repr_params [("A", 2)] (up [] 0) cold).
  - discriminate.
  - apply cold_not_fresh.
  - reflexivity.
Defined.

Lemma history_interval_policy_witness :
  sent (get_coin_history repr_params Some "bitcoin" "30" (chart_env [] 0) cold).2
  = sent cold ++ [history_request "bitcoin" "30" "daily"].
Proof.
  apply (history_interval_policy repr_params Some "bitcoin" "30" 30
           (chart_env [] 0) cold).
  - reflexivity.
  - apply cold_not_fresh.
Defined.


Lemma history_complete_witness :
  ∃ n series,
    Py.int "7" = Some n ∧
    (get_with_cache repr_params
       (history_request "bitcoin" "7" (if 7 <? n then "daily" else "hourly")).1
       (history_request "bitcoin" "7" (if 7 <? n then "daily" else "hourly")).2
       CACHE_DURATION (chart_env [(1000, 5); (2000, 6)] 0) cold).1
    = Return (JChart series) ∧
    map (λ r, (timestamp r, price r))
      [{| timestamp := 1000; price := 5; date := 1000 |};
       {| timestamp := 2000; price := 6; date := 2000 |}]
    = get_prices series ∧
    Forall (λ r, Some (timestamp r) = Some (date r))
      [{| timestamp := 1000; price := 5; date := 1000 |};
       {| timestamp := 2000; price := 6; date := 2000 |}].
Proof.
  apply (history_complete_or_absent repr_params Some "bitcoin" "7"
           (chart_env [(1000, 5); (2000, 6)] 0) cold).
  vm_compute. reflexivity.
Defined.

Lemma failed_history_shows_no_data_witness :
  (home_price_chart repr_params Some "bitcoin" "Bitcoin" "30d" (down 0) cold).1
  = Return (NoData "No data available").
Proof.
  apply (failed_history_shows_no_data repr_params Some "bitcoin" "Bitcoin" "30d" 30
           (down 0) cold).
  - reflexivity.
  - apply cold_not_fresh.
  - simpl. exact I.
Defined.

Lemma only_A_well_priced : well_priced only_A [("A", 1); ("Z", 1)].
Proof.
  repeat (apply Forall_cons; split);
    [simpl; intros c Hc; try discriminate Hc; injection Hc as <-; by split..
    |apply Forall_nil_2].
Qed.

Lemma priced_holdings_total_witness :
  ∃ v,
    (calculate_portfolio_value repr_params [("A", 1); ("Z", 1)] (up only_A 0) cold).1
    = Return v ∧
    total_value v = 7 ∧ length (holdings v) = 1%nat.
Proof.
  destruct (priced_holdings_total repr_params [("A", 1); ("Z", 1)] only_A
              (up only_A 0) cold (up_serves _ _) only_A_well_priced)
    as (v & Hv & Ht & Hp & _).
  exists v. split; [exact Hv|]. split; [exact Ht|].
  apply Permutation_length in Hp. rewrite length_map in Hp. exact Hp.
Defined.

Lemma ties_well_priced :
  well_priced [coin "A" 7 1; coin "B" 1 0; coin "C" 9 0]
    [("B", 7); ("Z", 1); ("A", 1); ("C", 2)].
Proof.
  repeat (apply Forall_cons; split);
    [simpl; intros c Hc; try discriminate Hc; injection Hc as <-; by split..
    |apply Forall_nil_2].
Qed.

Lemma priced_holdings_sorted_witness :
  ∃ v,
    (calculate_portfolio_value repr_params [("B", 7); ("Z", 1); ("A", 1); ("C", 2)]
       (up [coin "A" 7 1; coin "B" 1 0; coin "C" 9 0] 0) cold).1 = Return v ∧
    map item_value (holdings v) = [18; 7; 7] ∧
    map item_id (filter (λ it, item_value it = 7) (holdings v)) = ["B"; "A"].
Proof.
  destruct (priced_holdings_sorted repr_params
              [("B", 7); ("Z", 1); ("A", 1); ("C", 2)]
              [coin "A" 7 1; coin "B" 1 0; coin "C" 9 0]
              (up [coin "A" 7 1; coin "B" 1 0; coin "C" 9 0] 0) cold
              (up_serves _ _) ties_well_priced)
    as (v & Hv & Hs & Hk).
  exists v. split; [exact Hv|]. split; [|exact (Hk 7)].
  rewrite valuation_fst with (all_coins := JCoins [coin "A" 7 1; coin "B" 1 0; coin "C" 9 0]) in Hv;
    [|done|apply up_serves].
  vm_compute in Hv. injection Hv as <-. reflexivity.
Defined.


Lemma portfolio_pie_witness :
  match create_portfolio_pie_chart
          {| total_value := 7; holdings := [item "A" "A" 1 7]; error := None |} with
  | Annotation _ =>
      Forall (λ h : string * Z, latest_coin [coin "A" 7 0] h.1 = None) [("A", 1); ("Z", 1)] ∧
      7 = 0
  | Pie _ names values =>
      length names = length values ∧
      length values
      = length (filter (λ cid, is_Some (latest_coin [coin "A" 7 0] cid))
                       (map fst [("A", 1); ("Z", 1)])) ∧
      StronglySorted (λ a b, b ≤ a) values
  end.
Proof.
  apply (portfolio_pie_shows_held_coins repr_params [("A", 1); ("Z", 1)] [coin "A" 7 0]
           (up [coin "A" 7 0] 0) cold
           {| total_value := 7; holdings := [item "A" "A" 1 7]; error := None |}).
  - apply up_serves.
  - vm_compute. reflexivity.
Defined.

Lemma holding_values_are_shares_witness :
  Forall (λ it, 0 ≤ item_value it ≤ 7) [item "A" "A" 1 7].
Proof.
  apply (holding_values_are_shares repr_params [("A", 1); ("Z", 1)] [coin "A" 7 0]
           (up [coin "A" 7 0] 0) cold
           {| total_value := 7; holdings := [item "A" "A" 1 7]; error := None |}).
  - apply up_serves.
  - vm_compute. reflexivity.
  - repeat constructor; simpl; lia.
  - repeat constructor. simpl. intros p [= <-]. lia.
Defined.

Lemma dominance_chart_shape_witness :
  ∃ obj data percentages,
    Some [("data", {| market_cap_percentage := Some [("eth", 20); ("btc", 50)] |})]
    = Some obj ∧
    snd <$> find (λ kv, String.eqb (fst kv) "data") obj = Some data ∧
    market_cap_percentage data = Some percentages ∧
    percentages ≠ [] ∧
    length ["BTC"; "ETH"] = length [50; 20] ∧
    length [50; 20]
    = (if bool_decide (8 < length percentages)%nat then 9 else length percentages)%nat ∧
    StronglySorted (λ a b, b ≤ a) (take 8 [50; 20]) ∧
    ∀ x, x ∈ take 8 [50; 20] → x ∈ map snd percentages.
Proof.
  apply (dominance_chart_shape
           (Some [("data",
                   {| market_cap_percentage := Some [("eth", 20); ("btc", 50)] |})])
           "Market Dominance" ["BTC"; "ETH"] [50; 20]).
  reflexivity.
Defined.

Lemma movers_snapshot_without_null :
  Forall (λ c, mc_price_change_percentage_24h c ≠ Null) movers_snapshot.
Proof. repeat (apply Forall_cons; split); [discriminate..|apply Forall_nil_2]. Qed.

Lemma movers_ranking_witness :
  ∃ gainers losers,
    map mc_id (take 5 gainers) = ["e"; "a"] ∧
    top_gainers movers_snapshot = Return (take 5 gainers) ∧
    map mc_id (take 5 losers) = ["b"; "f"] ∧
    top_losers movers_snapshot = Return (take 5 losers) ∧
    (coin "c" 1 0 ∉ take 5 gainers) ∧ (coin "c" 1 0 ∉ take 5 losers).
Proof.
  destruct (movers_ranking_without_null movers_snapshot movers_snapshot_without_null)
    as (g & l & _ & Hg & _ & Hl & Hzero).
  exists g, l.
  assert (map mc_id (take 5 g) = ["e"; "a"]) as Hgid.
  { assert (Return (take 5 g) = Return [coin "e" 1 10; coin "a" 1 5]) as Heq
      by (rewrite <- Hg; vm_compute; reflexivity).
    injection Heq as ->. reflexivity. }
  assert (map mc_id (take 5 l) = ["b"; "f"]) as Hlid.
  { assert (Return (take 5 l) = Return [coin "b" 1 (-3); coin "f" 1 (-1)]) as Heq
      by (rewrite <- Hl; vm_compute; reflexivity).
    injection Heq as ->. reflexivity. }
  split; [exact Hgid|]. split; [exact Hg|]. split; [exact Hlid|].
  split; [exact Hl|]. apply (Hzero (coin "c" 1 0)). reflexivity.
Defined.

Lemma movers_are_the_extremes_witness :
  change_key (coin "a" 1 5) ≤ change_key (coin "e" 1 10) ∧
  change_key (coin "b" 1 (-3)) ≤ change_key (coin "c" 1 0).
Proof.
  destruct (movers_are_the_extremes
              (movers_snapshot ++ [coin "g" 1 6; coin "h" 1 7; coin "i" 1 8;
                                   coin "j" 1 9])
              [coin "e" 1 10; coin "j" 1 9; coin "i" 1 8; coin "h" 1 7; coin "g" 1 6]
              [coin "b" 1 (-3); coin "f" 1 (-1)])
    as (_ & _ & _ & Hgain & Hlose).
  - vm_compute. reflexivity.
  - vm_compute. reflexivity.
  - split.
    + apply Hgain.
      * repeat constructor.
      * vm_compute. repeat constructor.
      * intros Hin.
        repeat (apply elem_of_cons in Hin as [Hin|Hin]; [discriminate Hin|]).
        by apply elem_of_nil in Hin.
    + apply Hlose.
      * repeat constructor.
      * vm_compute. repeat constructor.
      * intros Hin.
        repeat (apply elem_of_cons in Hin as [Hin|Hin]; [discriminate Hin|]).
        by apply elem_of_nil in Hin.
Defined.

Lemma add_accumulates_witness :
  Dict.get (add_to_portfolio [("A", 1); ("B", 4)] "A" 2).1 "A"
  = Some (default 0 (Dict.get [("A", 1); ("B", 4)] "A") + 2)
  ∧ ∀ other, other ≠ "A" →
      Dict.get (add_to_portfolio [("A", 1); ("B", 4)] "A" 2).1 other
      = Dict.get [("A", 1); ("B", 4)] other.
Proof. apply (add_accumulates [("A", 1); ("B", 4)] "A" 2). lia. Defined.

Lemma well_formed_example : well_formed_portfolio [("A", 1); ("B", 4)].
Proof.
  split.
  - simpl. apply NoDup_cons. split; [|apply NoDup_singleton].
    by intros [=]%list_elem_of_singleton.
  - repeat constructor; simpl; lia.
Qed.

Lemma add_keeps_portfolio_well_formed_witness :
  well_formed_portfolio (add_to_portfolio [("A", 1); ("B", 4)] "C" 2).1 ∧
  (map fst (add_to_portfolio [("A", 1); ("B", 4)] "C" 2).1
   = map fst [("A", 1); ("B", 4)]
   ∨ (("C" ∉ map fst [("A", 1); ("B", 4)]) ∧
      map fst (add_to_portfolio [("A", 1); ("B", 4)] "C" 2).1
      = map fst [("A", 1); ("B", 4)] ++ ["C"])).
Proof.
  apply (add_keeps_portfolio_well_formed [("A", 1); ("B", 4)] "C" 2).
  apply well_formed_example.
Defined.

Lemma remove_button_witness :
  ∃ p',
    remove_holding [item "A" "Alpha" 1 7; item "B" "Beta" 4 1] 1
      [("A", 1); ("B", 4)] = Return p' ∧
    Dict.get p' (item_id (item "B" "Beta" 4 1)) = None ∧
    (∀ other, other ≠ item_id (item "B" "Beta" 4 1) →
       Dict.get p' other = Dict.get [("A", 1); ("B", 4)] other) ∧
    well_formed_portfolio p'.
Proof.
  apply (remove_button_removes_its_row
           [item "A" "Alpha" 1 7; item "B" "Beta" 4 1] 1 (item "B" "Beta" 4 1)
           [("A", 1); ("B", 4)]).
  - simpl. apply NoDup_cons. split; [|apply NoDup_singleton].
    by intros [=]%list_elem_of_singleton.
  - reflexivity.
  - apply well_formed_example.
Defined.

Lemma same_name_witness :
  ∃ p',
    remove_holding same_named 1 [("usd-coin", 5); ("bridged-usdc", 3)] = Return p' ∧
    Dict.get p' (item_id (item "bridged-usdc" "USD Coin" 3 1))
    = Dict.get [("usd-coin", 5); ("bridged-usdc", 3)]
        (item_id (item "bridged-usdc" "USD Coin" 3 1)) ∧
    Dict.get p' (item_id (item "usd-coin" "USD Coin" 5 1)) = None.
Proof.
  apply (same_name_hides_later_row same_named 1 0
           (item "usd-coin" "USD Coin" 5 1) (item "bridged-usdc" "USD Coin" 3 1)
           [("usd-coin", 5); ("bridged-usdc", 3)]).
  - lia.
  - reflexivity.
  - reflexivity.
  - reflexivity.
  - intros k h Hk. lia.
  - simpl. discriminate.
  - simpl. apply NoDup_cons. split; [|apply NoDup_singleton].
    by intros [=]%list_elem_of_singleton.
Defined.

Lemma watchlist_witness :
  NoDup (add_to_watchlist ["bitcoin"] "ethereum").1 ∧
  "ethereum" ∈ (add_to_watchlist ["bitcoin"] "ethereum").1 ∧
  (add_to_watchlist (add_to_watchlist ["bitcoin"] "ethereum").1 "ethereum").1
  = (add_to_watchlist ["bitcoin"] "ethereum").1 ∧
  ∃ w',
    remove_from_watchlist (add_to_watchlist ["bitcoin"] "ethereum").1 "ethereum"
    = Return w' ∧
    NoDup w' ∧ ("ethereum" ∉ w') ∧ (("ethereum" ∉ ["bitcoin"]) → w' = ["bitcoin"]).
Proof.
  apply (watchlist_stays_duplicate_free ["bitcoin"] "ethereum").
  apply NoDup_singleton.
Defined.

Lemma default_coin_index_witness :
  (default_coin_index [("ethereum", "Ethereum (ETH)"); ("bitcoin", "Bitcoin (BTC)")]
   < length [("ethereum", "Ethereum (ETH)"); ("bitcoin", "Bitcoin (BTC)")])%nat
  ∧ default_coin_index [("ethereum", "Ethereum (ETH)"); ("bitcoin", "Bitcoin (BTC)")]
    = 1%nat.
Proof.
  split; [|reflexivity].
  apply (default_coin_index_is_valid
           [("ethereum", "Ethereum (ETH)"); ("bitcoin", "Bitcoin (BTC)")]).
  discriminate.
Defined.

Lemma search_finds_witness :
  ∃ found,
    search_results ascii_lower "BIT"
      [coin "ethereum" 1 0; coin "bitcoin" 2 0; coin "orbit" 3 0]
    = Return found ∧
    found `sublist_of` [coin "ethereum" 1 0; coin "bitcoin" 2 0; coin "orbit" 3 0] ∧
    (∀ c, c ∈ found ↔
          c ∈ [coin "ethereum" 1 0; coin "bitcoin" 2 0; coin "orbit" 3 0]
          ∧ named_like ascii_lower "BIT" c) ∧
    (∀ c name,
       c ∈ [coin "ethereum" 1 0; coin "bitcoin" 2 0; coin "orbit" 3 0] →
       mc_name c = Value name → ascii_lower name = ascii_lower "BIT" → c ∈ found).
Proof.
  apply (search_finds_matching_coins ascii_lower "BIT"
           [coin "ethereum" 1 0; coin "bitcoin" 2 0; coin "orbit" 3 0]).
  repeat constructor; by eexists.
Defined.

Lemma search_needs_names_witness :
  ∃ e, search_results ascii_lower "bit" [coin "bitcoin" 2 0; nameless] = Raise e.
Proof.
  apply (proj2 (search_needs_names ascii_lower "bit" [coin "bitcoin" 2 0; nameless])
           nameless).
  - right. left.
  - left. reflexivity.
Defined.
